(* ===== verification/_CoqProject ===== *)
-Q . S2P
Prelude.v
JsValue.v
Ilike.v
Query.v
Products.v
Normalize.v
DataTable.v
Filters.v
Dashboard.v
Auth.v
TopNav.v
Quiescence.v
Wiring.v
