(* ===== verification/Prelude.v ===== *)
(** * A verification development of the products dashboard

    The program (a Next.js application on a Supabase/PostgREST backend)
    lets an operator browse a catalog of products behind a login page.
    Its parts, and the files that model them:

    - [Prelude] (this file): the result type that models a JavaScript
      [throw] inside an [async] function ([res], with [Ok]/[Err] and the
      notation [x <- m ;; k] of [supa_scope]), the integer helpers
      ([ceil_div] for [Math.ceil] of a quotient), the ASCII case folding
      used by [ILIKE], the tactics and the hint database [supa].
    - [JsValue]: the JavaScript runtime values the code manipulates
      ([undefined], [null], booleans, numbers, strings, arrays, objects),
      property access [v.k] (a [TypeError] on [null]/[undefined]),
      optional chaining [v?.k], indexing [v[0]], [Array.isArray],
      truthiness and [a || b].
    - [Ilike]: the case-insensitive [ILIKE] matcher of the backend
      ([like_ci], from the spec) and the pattern ["%" + name + "%"] the
      code builds ([substring_pattern]).
    - [Query]: the PostgREST query builder of [supabase-js] as the code
      uses it ([from], [select], [ilike], [eq], [in], [order], [range])
      and the semantics of a built query on
      an in-memory database ([run_query]): inner joins of the embedded
      resources, filters, ordering, the [range] window and the exact
      count.  This is the backend, which is not under [src/]; it is
      modelled from the spec (section 6) and marked so in the manifest.
      The class [DataSource] is the interface the code is proved against.
    - [Filters]: [src/src/lib/filters.ts], the directory loader
      ([fetchManufacturers], [fetchCategories]).
    - [Products]: [src/src/lib/products.ts], the query compiler:
      [getManufacturerIdsByName] and [fetchProducts], which turns a
      [ProductFilters] value into one backend query (or short-circuits).
    - [Normalize]: the response mapping of
      [src/src/app/dashboard/products/page.tsx] (lines 57-71) and the
      [Product] type of products.ts.
    - [DataTable]: [src/src/components/products/DataTable.tsx], a
      stateless component: its props, [totalPages], [handleSort], the
      select values and items, the header arrows, the body and its rows,
      the pagination footer, the whole view ([DataTable]) and the
      callbacks each user action calls ([emit]).
    - [Dashboard]: the listing controller, [ProductsDashboard] of
      [page.tsx] (Module [Controller]): its [useState] cells as a record,
      its three effects, the user intents coming from [DataTable], and
      the JavaScript promise queue as a finite map of pending requests
      that settle in any order.  [step] is the executable transition
      function, [run] folds it over a trace of events, and [render] is
      what the page shows.
    - [Auth]: [src/src/lib/handleAuth.ts] and the login form
      [src/src/app/auth/page.tsx] (Module [AuthPage]), against the
      interface [AuthService] of the Supabase auth client; the async
      submit handler is split at its [await] into two events.
    - [TopNav]: [src/src/components/TopNav.tsx] (Module [Nav]), over the
      session and route of the [Dashboard] model.
    - [Quiescence]: the promise queue of the controller (Module
      [Quiescence]): settlements terminate, and every reachable state
      can drain its pending requests.
    - [Wiring]: the props [page.tsx] hands to [DataTable] (lines
      94-115, Module [Wiring]), and what the table renders from the
      controller's state.

    How the parts interact: [Dashboard] calls [fetchProducts]
    ([Products]) and the two loaders ([Filters]) through the
    [DataSource] interface, maps the answer with [normalize], and hands
    its state to [DataTable], whose callbacks come back as events.  The
    login form sends the user to the dashboard, the dashboard sends a
    user without a session to [/auth], and [TopNav] links the pages.

    The theorems, by claim number:
    - C1-C8: the query compiler refines the spec's filter contract on a
      spec-conforming backend (C1), with the page-size bound (C2), a
      count independent of the page (C3), the short-circuit (C4), name
      resolution (C5), error propagation (C6), and two departures: id 0
      is ignored (C7), the search text is an unescaped ILIKE pattern, so
      [_] and [%] in it are wildcards for every search (C8).
    - C9: the substring pattern matches exactly the substrings.
    - C10: end to end, a settled listing request shows the spec's page.
    - C11, C13: normalization of joined rows, and the lost category of
      an array-form article.
    - C12: the option items of a filter select round-trip through its
      change handler.
    - C14-C17: page-count bounds, sort toggle, select round trip, sorted
      directory loads.
    - C18-C28: controller invariants by induction on traces (page >= 1,
      loading only with a fetch in flight, products and total from one
      response), single steps, and traces that exhibit stale responses,
      the indicator turning off early, a page past the last one, and a
      fetch without a session.
    - C29-C32: the login form (Sign Up only signs in, loading iff a
      sign-in is pending, the outcome of a settled sign-in, one
      navigation per successful sign-in and none otherwise).
    - C33-C35: the navigation bar (Dashboard always highlighted, logout
      keeps the session, the bar hidden after the dashboard's redirect).
    - C36: normalized products have the TypeScript type [Product] on a
      database with the schema's column types.
    - C37-C38: the promise queue: settlements are a well-founded relation
      (termination, measured by the number of pending requests; it rests
      on the effect's dependency list, since every update re-renders and
      re-checks it), and
      from every reachable state the queue can be drained to a state
      with nothing pending and the loading indicator off (liveness).
    - C39-C40: a failed directory load leaves both selects with their
      "All" item only (spec section 7), and the header arrow follows a
      header click.

    Not modelled: markup and styling; [console.log]; the browser's
    [type="email"] format check (it only blocks more submissions); the
    Supabase client configuration and the UI kit, which are not files of
    the repository; unmounting of components.

    Numbers are JavaScript numbers restricted to integers and modelled as
    [Z]: every number the code computes with is an id, a count, a page or
    a page size, and none is large enough for the double format to round.
    No fuel is needed anywhere: every function is structurally recursive.
    Where the program does not terminate by structure (a queue of
    promises that settle one at a time), termination is proved as the
    well-foundedness of the settlement relation (C37).
*)

From Stdlib Require Import ZArith List String Ascii Bool Lia Sorting.Sorted Sorting.Permutation.
Import ListNotations.

Declare Scope supa_scope.
Delimit Scope supa_scope with supa.
Open Scope Z_scope.

(** ** Errors and results *)

(** The errors the modelled code can throw: a JavaScript [TypeError]
    (property access on [null] or [undefined]) and the error object a
    Supabase call returns in its [error] field. *)
Inductive error :=
| TypeError (what : string)
| BackendError (code : string) (message : string).

(** The outcome of an [async] function: it resolves with a value or
    rejects with an error. *)
Inductive res (A : Type) :=
| Ok (a : A)
| Err (e : error).
Arguments Ok {A} a.
Arguments Err {A} e.

Definition res_bind {A B} (m : res A) (k : A -> res B) : res B :=
  match m with
  | Ok a => k a
  | Err e => Err e
  end.

Definition res_map {A B} (f : A -> B) (m : res A) : res B :=
  res_bind m (fun a => Ok (f a)).

Notation "x <- m ;; k" := (res_bind m (fun x => k))
  (at level 60, m at next level, right associativity) : supa_scope.

Open Scope supa_scope.

(** [Promise.all]-like sequencing of a list of results, in order. *)
Fixpoint res_all {A} (l : list (res A)) : res (list A) :=
  match l with
  | [] => Ok []
  | r :: rs => x <- r ;; xs <- res_all rs ;; Ok (x :: xs)
  end.

Create HintDb supa discriminated.
Create Rewrite HintDb supa_rw.

Lemma res_bind_Ok {A B} (a : A) (k : A -> res B) : res_bind (Ok a) k = k a.
Proof. reflexivity. Qed.

Lemma res_bind_Err {A B} (e : error) (k : A -> res B) : res_bind (Err e) k = Err e.
Proof. reflexivity. Qed.

Lemma res_bind_eq_Ok {A B} (m : res A) (k : A -> res B) b :
  res_bind m k = Ok b -> exists a, m = Ok a /\ k a = Ok b.
Proof. destruct m; simpl; [eauto | discriminate]. Qed.

Lemma res_all_Ok {A} (l : list (res A)) (xs : list A) :
  res_all l = Ok xs -> Forall2 (fun r x => r = Ok x) l xs.
Proof.
  revert xs; induction l as [|r l IH]; simpl; intros xs H.
  - injection H as <-. constructor.
  - apply res_bind_eq_Ok in H as (x & -> & H).
    apply res_bind_eq_Ok in H as (ys & Hys & H). injection H as <-.
    constructor; auto.
Qed.

Lemma res_all_map_Ok {A B} (f : A -> B) (l : list A) :
  res_all (map (fun a => Ok (f a)) l) = Ok (map f l).
Proof. induction l as [|a l IH]; simpl; [reflexivity | now rewrite IH]. Qed.

Lemma res_all_length {A} (l : list (res A)) xs :
  res_all l = Ok xs -> List.length xs = List.length l.
Proof. intros H. symmetry. eapply Forall2_length, res_all_Ok, H. Qed.

#[export] Hint Rewrite @res_bind_Ok @res_bind_Err : supa_rw.

(** ** Integers *)

(** [Math.ceil(a / b)] for integers [a] and a positive [b]: [Z.div]
    rounds toward minus infinity, so the ceiling is [-((-a) / b)]. *)
Definition ceil_div (a b : Z) : Z := - ((- a) / b).

Lemma ceil_div_spec a b :
  0 < b -> (ceil_div a b - 1) * b < a <= ceil_div a b * b.
Proof.
  intros Hb. unfold ceil_div.
  pose proof (Z.div_mod (- a) b ltac:(lia)).
  pose proof (Z.mod_pos_bound (- a) b Hb). nia.
Qed.

Lemma ceil_div_nonneg a b : 0 < b -> 0 <= a -> 0 <= ceil_div a b.
Proof. intros Hb Ha. pose proof (ceil_div_spec a b Hb). nia. Qed.

Lemma ceil_div_le a b n :
  0 < b -> (a <= n * b <-> ceil_div a b <= n).
Proof. intros Hb. pose proof (ceil_div_spec a b Hb). split; intros; nia. Qed.

(** ** Lists *)

(** The window [[from, to]] (inclusive) of a list, as PostgREST's
    [range(from, to)] takes it. *)
Definition window {A} (from to : Z) (l : list A) : list A :=
  firstn (Z.to_nat (to - from + 1)) (skipn (Z.to_nat from) l).

Lemma window_length {A} from to (l : list A) :
  0 <= from -> from <= to + 1 ->
  List.length (window from to l) =
    Nat.min (Z.to_nat (to - from + 1)) (List.length l - Z.to_nat from).
Proof. intros. unfold window. now rewrite length_firstn, length_skipn. Qed.

Lemma window_incl {A} from to (l : list A) x :
  In x (window from to l) -> In x l.
Proof.
  unfold window. intros H.
  rewrite <- (firstn_skipn (Z.to_nat from) l).
  apply in_or_app. right.
  rewrite <- (firstn_skipn (Z.to_nat (to - from + 1)) (skipn (Z.to_nat from) l)).
  apply in_or_app. now left.
Qed.

(** ** Case-insensitive ASCII *)

(** PostgreSQL's [ILIKE] compares characters after case folding; on
    ASCII letters this is [lower]. *)
Definition ascii_lower (c : ascii) : ascii :=
  let n := N_of_ascii c in
  if ((65 <=? n)%N && (n <=? 90)%N)%bool then ascii_of_N (n + 32) else c.

Definition ascii_eq_ci (c d : ascii) : bool :=
  Ascii.eqb (ascii_lower c) (ascii_lower d).

Fixpoint string_lower (s : string) : string :=
  match s with
  | EmptyString => EmptyString
  | String c s' => String (ascii_lower c) (string_lower s')
  end.

Lemma ascii_eq_ci_refl c : ascii_eq_ci c c = true.
Proof. unfold ascii_eq_ci. apply Ascii.eqb_refl. Qed.

Lemma ascii_eq_ci_sym c d : ascii_eq_ci c d = ascii_eq_ci d c.
Proof. unfold ascii_eq_ci. apply Ascii.eqb_sym. Qed.

#[export] Hint Resolve ascii_eq_ci_refl : supa.

(** ** Tactics *)

Ltac inv H := inversion H; subst; clear H.

(** Split every [res_bind] whose scrutinee is known to be [Ok]. *)
Ltac res_simpl :=
  repeat match goal with
  | H : res_bind ?m _ = Ok _ |- _ =>
      let a := fresh "a" in let Ha := fresh "Ha" in
      apply res_bind_eq_Ok in H as (a & Ha & H)
  | H : Ok _ = Ok _ |- _ => injection H as H
  | H : Ok _ = Err _ |- _ => discriminate H
  | H : Err _ = Ok _ |- _ => discriminate H
  end; autorewrite with supa_rw in *.

(** ** Stable insertion sort

    The order in which the backend returns rows for [ORDER BY]: a stable
    sort by a boolean [le] (rows that compare equal keep their storage
    order). *)
Section SortBy.
Context {A : Type} (le : A -> A -> bool).

Fixpoint insert_by (x : A) (l : list A) : list A :=
  match l with
  | [] => [x]
  | y :: l' => if le x y then x :: l else y :: insert_by x l'
  end.

Fixpoint sort_by (l : list A) : list A :=
  match l with
  | [] => []
  | x :: l' => insert_by x (sort_by l')
  end.

Lemma insert_by_perm x l : Permutation (insert_by x l) (x :: l).
Proof.
  induction l as [|y l IH]; simpl; [reflexivity|].
  destruct (le x y); [reflexivity|].
  rewrite IH. apply perm_swap.
Qed.

Lemma sort_by_perm l : Permutation (sort_by l) l.
Proof.
  induction l as [|x l IH]; simpl; [reflexivity|].
  rewrite insert_by_perm. now apply perm_skip.
Qed.

Hypothesis le_total : forall a b, le a b = false -> le b a = true.

Lemma insert_by_sorted x l :
  Sorted (fun a b => le a b = true) l ->
  Sorted (fun a b => le a b = true) (insert_by x l).
Proof.
  induction 1 as [|y l Hl IH Hhd]; simpl; [repeat constructor|].
  destruct (le x y) eqn:Exy; [now repeat constructor|].
  constructor; [exact IH|].
  destruct l as [|z l]; simpl; [constructor; auto|].
  inversion Hhd; subst.
  destruct (le x z); constructor; auto.
Qed.

Lemma sort_by_sorted l : Sorted (fun a b => le a b = true) (sort_by l).
Proof. induction l; simpl; [constructor | now apply insert_by_sorted]. Qed.
End SortBy.

Lemma sort_by_id {A} (le : A -> A -> bool) l :
  (forall a b, le a b = true) -> sort_by le l = l.
Proof.
  intros Hle. induction l as [|x l IH]; simpl; [reflexivity|].
  rewrite IH. destruct l; simpl; [reflexivity|]. now rewrite Hle.
Qed.

Lemma insert_by_map {A B} (le : A -> A -> bool) (le' : B -> B -> bool) (g : B -> A) x l :
  (forall a b, le (g a) (g b) = le' a b) ->
  insert_by le (g x) (map g l) = map g (insert_by le' x l).
Proof.
  intros Hle. induction l as [|y l IH]; simpl; [reflexivity|].
  rewrite Hle. destruct (le' x y); simpl; [reflexivity | now rewrite IH].
Qed.

Lemma sort_by_map {A B} (le : A -> A -> bool) (le' : B -> B -> bool) (g : B -> A) l :
  (forall a b, le (g a) (g b) = le' a b) ->
  sort_by le (map g l) = map g (sort_by le' l).
Proof.
  intros Hle. induction l as [|x l IH]; simpl; [reflexivity|].
  rewrite IH. now apply insert_by_map.
Qed.

Lemma filter_all_true {A} (f : A -> bool) l :
  (forall x, f x = true) -> filter f l = l.
Proof. intros Hf. induction l as [|x l IH]; simpl; [reflexivity | now rewrite Hf, IH]. Qed.

(** Concrete runs: a computed [Some]/[Ok] gives the witness. *)
Lemma exists_of_some {A} (o : option A) (P : A -> Prop) :
  match o with Some a => P a | None => False end -> exists a, o = Some a /\ P a.
Proof. destruct o; [eauto | contradiction]. Qed.

Lemma exists_of_ok {A} (o : res A) (P : A -> Prop) :
  match o with Ok a => P a | Err _ => False end -> exists a, o = Ok a /\ P a.
Proof. destruct o; [eauto | contradiction]. Qed.
