(* ===== verification/JsValue.v ===== *)
(** * JavaScript runtime values

    The values that flow through the code at run time, whatever their
    TypeScript annotation says: the rows the backend returns, the fields
    the normalization reads, the [count] of a response.  Objects are
    association lists (the first binding of a key wins, as the JSON
    parser keeps one binding per key).  The operations are the ones the
    sources use: [v.k] ([member], which throws a [TypeError] on [null]
    and [undefined]), [v?.k] ([opt_member]), [v[n]] ([index]),
    [Array.isArray] ([is_array]), truthiness ([truthy]) and [a || b]
    ([js_or]). *)

From Stdlib Require Import ZArith List String Ascii Bool Lia.
From Stdlib Require Import DecimalString DecimalNat.
From S2P Require Import Prelude.
Set Warnings "-register-all".
Import ListNotations.
Open Scope Z_scope.
Open Scope supa_scope.

Inductive js :=
| JUndef
| JNull
| JBool (b : bool)
| JNum (z : Z)
| JStr (s : string)
| JArr (l : list js)
| JObj (fs : list (string * js)).

(** The first binding of [k] in an object's fields. *)
Fixpoint obj_lookup (fs : list (string * js)) (k : string) : js :=
  match fs with
  | [] => JUndef
  | (k', v) :: fs' => if String.eqb k k' then v else obj_lookup fs' k
  end.

(** The decimal spelling of an array index, the key [v[n]] reads on an
    object. *)
Definition index_key (n : nat) : string :=
  NilEmpty.string_of_uint (Nat.to_uint n).

(** Property read on a value that is not [null] or [undefined].  Arrays
    and strings have a [length]; other keys of arrays and primitives are
    absent. *)
Definition get (v : js) (k : string) : js :=
  match v with
  | JObj fs => obj_lookup fs k
  | JArr l => if String.eqb k "length" then JNum (Z.of_nat (List.length l)) else JUndef
  | JStr s => if String.eqb k "length" then JNum (Z.of_nat (String.length s)) else JUndef
  | _ => JUndef
  end.

Definition nullish (v : js) : bool :=
  match v with
  | JUndef | JNull => true
  | _ => false
  end.

(** [v.k]: a [TypeError] when [v] is [null] or [undefined]. *)
Definition member (v : js) (k : string) : res js :=
  if nullish v
  then Err (TypeError ("Cannot read properties of undefined (reading '" ++ k ++ "')"))
  else Ok (get v k).

(** [v?.k]: [undefined] when [v] is [null] or [undefined]. *)
Definition opt_member (v : js) (k : string) : js :=
  if nullish v then JUndef else get v k.

(** [v[n]]: element [n] of an array ([undefined] past its end), the
    property named by [n] on an object, a [TypeError] on [null] and
    [undefined]. *)
Definition index (v : js) (n : nat) : res js :=
  match v with
  | JUndef | JNull =>
      Err (TypeError ("Cannot read properties of undefined (reading '" ++ index_key n ++ "')"))
  | JArr l => Ok (nth n l JUndef)
  | JObj fs => Ok (obj_lookup fs (index_key n))
  | JStr s =>
      Ok (match String.get n s with Some c => JStr (String c EmptyString) | None => JUndef end)
  | _ => Ok JUndef
  end.

(** [Array.isArray(v)]. *)
Definition is_array (v : js) : bool :=
  match v with
  | JArr _ => true
  | _ => false
  end.

(** JavaScript truthiness ([NaN] is not a value of the model). *)
Definition truthy (v : js) : bool :=
  match v with
  | JUndef | JNull => false
  | JBool b => b
  | JNum z => negb (z =? 0)
  | JStr s => negb (String.eqb s "")
  | JArr _ | JObj _ => true
  end.

(** [a || b]. *)
Definition js_or (a b : js) : js := if truthy a then a else b.

(** ** Lemmas *)

Lemma member_ok v k : nullish v = false -> member v k = Ok (get v k).
Proof. unfold member. now intros ->. Qed.

Lemma member_nullish v k : nullish v = true -> exists e, member v k = Err e.
Proof. unfold member. intros ->. eauto. Qed.

Lemma opt_member_get v k : nullish v = false -> opt_member v k = get v k.
Proof. unfold opt_member. now intros ->. Qed.

Lemma opt_member_undef k : opt_member JUndef k = JUndef.
Proof. reflexivity. Qed.

Lemma obj_lookup_head k v fs : obj_lookup ((k, v) :: fs) k = v.
Proof. simpl. now rewrite String.eqb_refl. Qed.

(** An array has no named property but [length]. *)
Lemma get_array_other l k : k <> "length"%string -> get (JArr l) k = JUndef.
Proof. intros H. simpl. apply String.eqb_neq in H. now rewrite H. Qed.

Lemma js_or_truthy a b : truthy a = true -> js_or a b = a.
Proof. unfold js_or. now intros ->. Qed.

Lemma js_or_falsy a b : truthy a = false -> js_or a b = b.
Proof. unfold js_or. now intros ->. Qed.

Lemma truthy_num z : truthy (JNum z) = true <-> z <> 0.
Proof. simpl. destruct (Z.eqb_spec z 0); simpl; intuition congruence. Qed.

#[export] Hint Rewrite opt_member_undef obj_lookup_head : supa_rw.
