(* ===== verification/Ilike.v ===== *)
(** * PostgreSQL [ILIKE] pattern matching

    The backend evaluates [query.ilike(col, pattern)] with PostgreSQL's
    [ILIKE]: [%] matches any sequence of characters, [_] any single
    character, a backslash makes the next character literal, every other
    character matches itself up to case.  The code builds its patterns as
    [`%${text}%`] (products.ts lines 31 and 67) and so relies on [ILIKE]
    being a case-insensitive substring test.  [like_ci] is the matcher,
    [contains_ci] the substring test, and [like_contains] shows the two
    agree exactly when the text has no pattern character. *)

From Stdlib Require Import ZArith List String Ascii Bool Lia.
From S2P Require Import Prelude.
Import ListNotations.
Open Scope supa_scope.

Definition is_meta (c : ascii) : bool :=
  (Ascii.eqb c "%" || Ascii.eqb c "_" || Ascii.eqb c "\")%char%bool.

(** A text with no [%], [_] or backslash: a pattern that only matches
    itself. *)
Fixpoint plain (s : string) : bool :=
  match s with
  | EmptyString => true
  | String c s' => negb (is_meta c) && plain s'
  end.

(** [s ILIKE p].  A pattern ending in a lone backslash is an error in
    PostgreSQL; the code's patterns all end in [%], so that case never
    arises and is answered [false] here. *)
Fixpoint like_ci (p s : string) : bool :=
  match p with
  | EmptyString => match s with EmptyString => true | String _ _ => false end
  | String c p' =>
      if Ascii.eqb c "%" then
        (fix go (s : string) : bool :=
           like_ci p' s || match s with EmptyString => false | String _ s' => go s' end) s
      else if Ascii.eqb c "_" then
        match s with EmptyString => false | String _ s' => like_ci p' s' end
      else if Ascii.eqb c "\" then
        match p' with
        | EmptyString => false
        | String e p'' =>
            match s with
            | EmptyString => false
            | String d s' => ascii_eq_ci e d && like_ci p'' s'
            end
        end
      else
        match s with
        | EmptyString => false
        | String d s' => ascii_eq_ci c d && like_ci p' s'
        end
  end.

(** [x] is a prefix of [s] up to case. *)
Fixpoint prefix_ci (x s : string) : bool :=
  match x with
  | EmptyString => true
  | String c x' =>
      match s with
      | EmptyString => false
      | String d s' => ascii_eq_ci c d && prefix_ci x' s'
      end
  end.

(** [x] occurs in [s] up to case: the reference semantics of a
    case-insensitive substring filter (spec section 4.1). *)
Fixpoint contains_ci (x s : string) : bool :=
  prefix_ci x s || match s with EmptyString => false | String _ s' => contains_ci x s' end.

(** The pattern [`%${x}%`] the code builds. *)
Definition substring_pattern (x : string) : string := "%" ++ x ++ "%".
Arguments substring_pattern : simpl never.

(** ** Lemmas *)

Lemma like_pct_unfold p s :
  like_ci (String "%" p) s =
    like_ci p s || match s with EmptyString => false | String _ s' => like_ci (String "%" p) s' end.
Proof. destruct s; reflexivity. Qed.

Lemma like_pct_any s : like_ci "%" s = true.
Proof.
  induction s as [|a s IH]; [reflexivity|].
  rewrite like_pct_unfold, IH. apply orb_true_r.
Qed.

Lemma like_plain_pct x s :
  plain x = true -> like_ci (x ++ "%") s = prefix_ci x s.
Proof.
  revert s; induction x as [|c x IH]; intros s Hx.
  - apply like_pct_any.
  - simpl in Hx. apply andb_prop in Hx as [Hc Hx].
    unfold is_meta in Hc.
    destruct (Ascii.eqb c "%") eqn:E1; [discriminate|].
    destruct (Ascii.eqb c "_") eqn:E2; [discriminate|].
    destruct (Ascii.eqb c "\") eqn:E3; [discriminate|].
    simpl. rewrite E1, E2, E3. destruct s; [reflexivity|]. now rewrite IH.
Qed.

Lemma prefix_ci_spec x s :
  prefix_ci x s = true <->
  exists m t, s = (m ++ t)%string /\ string_lower m = string_lower x.
Proof.
  revert s; induction x as [|c x IH]; intros s; simpl.
  - split; [intros _; exists EmptyString, s; auto | auto].
  - destruct s as [|d s].
    + split; [discriminate|]. intros (m & t & Hs & Hm).
      destruct m; simpl in *; discriminate.
    + rewrite andb_true_iff, IH. unfold ascii_eq_ci. rewrite Ascii.eqb_eq.
      split.
      * intros (Hcd & m & t & -> & Hm). exists (String d m), t.
        simpl. split; [reflexivity|]. now rewrite Hm, Hcd.
      * intros (m & t & Hs & Hm). destruct m as [|d' m]; [discriminate|].
        simpl in Hs, Hm. injection Hs as <- ->. injection Hm as Hd Hm.
        split; [auto|]. eauto.
Qed.

Lemma string_app_assoc (x y z : string) : ((x ++ y) ++ z)%string = (x ++ (y ++ z))%string.
Proof. induction x as [|c x IH]; simpl; [reflexivity | now rewrite IH]. Qed.

(** A leading [%] skips any prefix of the subject. *)
Lemma like_pct_skip p u s : like_ci p s = true -> like_ci (String "%" p) (u ++ s) = true.
Proof.
  intros H. induction u as [|c u IH].
  - change (""%string ++ s)%string with s. rewrite like_pct_unfold, H. reflexivity.
  - change (String c u ++ s)%string with (String c (u ++ s)).
    rewrite like_pct_unfold, IH. apply orb_true_r.
Qed.

(** A plain text matches itself and nothing more. *)
Lemma like_plain_app a p s : plain a = true -> like_ci (a ++ p) (a ++ s) = like_ci p s.
Proof.
  induction a as [|c a IH]; intros Ha; [reflexivity|].
  simpl in Ha. apply andb_prop in Ha as [Hc Ha]. unfold is_meta in Hc.
  destruct (Ascii.eqb c "%") eqn:E1; [discriminate|].
  destruct (Ascii.eqb c "_") eqn:E2; [discriminate|].
  destruct (Ascii.eqb c "\") eqn:E3; [discriminate|].
  simpl. rewrite E1, E2, E3, ascii_eq_ci_refl. now apply IH.
Qed.

(** [_] matches exactly one character. *)
Lemma like_underscore p c s : like_ci (String "_" p) (String c s) = like_ci p s.
Proof. reflexivity. Qed.

#[export] Hint Rewrite string_app_assoc like_underscore : supa_rw.

(** ** Properties *)

Lemma like_substring x s :
  plain x = true -> like_ci (substring_pattern x) s = contains_ci x s.
Proof.
  intros Hx. unfold substring_pattern. simpl.
  induction s as [|d s IH].
  - simpl. rewrite like_plain_pct by exact Hx. destruct x; reflexivity.
  - change (like_ci (String "%" (x ++ "%")) (String d s) = contains_ci x (String d s)).
    rewrite like_pct_unfold, like_plain_pct by exact Hx.
    simpl contains_ci. f_equal. exact IH.
Qed.

(** C9: The pattern [`%${x}%`] the code builds matches a string under
    [ILIKE] exactly when [x] occurs in it up to case, provided [x] has
    no pattern character: the compiled filter is the spec's
    case-insensitive substring test. *)
Theorem like_contains x s :
  plain x = true -> like_ci (substring_pattern x) s = contains_ci x s.
Proof. apply like_substring. Qed.

Lemma like_contains_witness :
  like_ci (substring_pattern "ab") "xABy" = contains_ci "ab" "xABy".
Proof. apply like_contains. reflexivity. Defined.

(** The substring test, characterised without recursion. *)
Theorem contains_ci_spec x s :
  contains_ci x s = true <->
  exists p m t, s = (p ++ m ++ t)%string /\ string_lower m = string_lower x.
Proof.
  induction s as [|d s IH]; simpl contains_ci; rewrite orb_true_iff, prefix_ci_spec.
  - split.
    + intros [(m & t & Hs & Hm) | H]; [|discriminate].
      exists EmptyString, m, t. auto.
    + intros (p & m & t & Hs & Hm). left. destruct p; [|discriminate].
      exists m, t. auto.
  - rewrite IH. split.
    + intros [(m & t & Hs & Hm) | (p & m & t & Hs & Hm)].
      * exists EmptyString, m, t. auto.
      * exists (String d p), m, t. rewrite Hs. auto.
    + intros (p & m & t & Hs & Hm). destruct p as [|d' p].
      * left. exists m, t. auto.
      * right. simpl in Hs. injection Hs as _ Hs. exists p, m, t. auto.
Qed.
