(* ===== verification/Query.v ===== *)
(** * The PostgREST query builder and the backend it talks to

    The code reaches the database through [supabase-js]:
    [supabase.from(t).select(cols, {count}).ilike(..).eq(..).in(..)
    .order(..).range(..)].  A call chain builds a [query] value; awaiting
    it sends it to PostgREST, which answers [{data, error, count}].

    The builder calls are the code's own ([from], [select], [ilike],
    [eq_], [in_], [order], [range] below, one function per method, each
    recording its arguments).  What the backend does with a query is not
    code of this repository: [run_query] models it from the spec (section
    6, "Data Query Interface") on an in-memory database of JSON rows:
    embedded resources are joined on their foreign key ([!inner] drops
    the rows without a match), filters are [AND]ed, rows are sorted by
    the [order] keys (stably, [NULL]s last in ascending order as in
    PostgreSQL), the exact count is the number of rows that pass the
    filters, and [range(from, to)] returns the inclusive window.

    [DataSource] is the interface the library code is written against:
    anything that answers a query.  [memory_source] is the in-memory
    backend as an instance of it. *)

From Stdlib Require Import ZArith List String Ascii Bool Lia Sorting.Sorted Sorting.Permutation.
From S2P Require Import Prelude JsValue Ilike.
Import ListNotations.
Open Scope Z_scope.
Open Scope supa_scope.
Set Warnings "-register-all".

(** ** Queries *)

(** A column of a [select] string: a plain column, or an embedded
    resource [alias:table!inner(cols)] joined through the foreign key
    column [fk] of the enclosing table. *)
Inductive column :=
| Col (name : string)
| Embed (alias table fk : string) (inner : bool) (cols : list column).

(** A row filter: [ilike(col, pattern)], [eq(col, v)], [in(col, vs)].
    A column may be a path [embedded.column]. *)
Inductive filter :=
| FIlike (col pattern : string)
| FEq (col : string) (v : js)
| FIn (col : string) (vs : list js).

Record query := mkQuery {
  q_table : string;
  q_select : list column;
  q_count_exact : bool;
  q_filters : list filter;
  q_order : list (string * bool);
  q_range : option (Z * Z)
}.

(** The answer of a successful request: [data] and [count] ([null]
    unless an exact count was asked for). *)
Record response := mkResponse {
  r_data : js;
  r_count : js
}.

(** ** The builder, one function per method *)

Definition from (t : string) : query := mkQuery t [] false [] [] None.

Definition select (q : query) (cols : list column) (count_exact : bool) : query :=
  mkQuery (q_table q) cols count_exact (q_filters q) (q_order q) (q_range q).

Definition add_filter (q : query) (f : filter) : query :=
  mkQuery (q_table q) (q_select q) (q_count_exact q) (q_filters q ++ [f]) (q_order q) (q_range q).

Definition ilike (q : query) (col pattern : string) : query := add_filter q (FIlike col pattern).
Definition eq_ (q : query) (col : string) (v : js) : query := add_filter q (FEq col v).
Definition in_ (q : query) (col : string) (vs : list js) : query := add_filter q (FIn col vs).

Definition order (q : query) (col : string) (ascending : bool) : query :=
  mkQuery (q_table q) (q_select q) (q_count_exact q) (q_filters q) (q_order q ++ [(col, ascending)]) (q_range q).

Definition range (q : query) (lo hi : Z) : query :=
  mkQuery (q_table q) (q_select q) (q_count_exact q) (q_filters q) (q_order q) (Some (lo, hi)).

(** The interface of a backend. *)
Class DataSource := {
  ds_run : query -> res response
}.

(** ** The in-memory backend (modelled from the spec) *)

Definition db := list (string * list js).

Fixpoint table_rows (d : db) (t : string) : option (list js) :=
  match d with
  | [] => None
  | (t', rows) :: d' => if String.eqb t t' then Some rows else table_rows d' t
  end.

(** SQL equality on the scalar values a filter compares: [NULL] equals
    nothing. *)
Definition sql_eqb (a b : js) : bool :=
  match a, b with
  | JNum x, JNum y => Z.eqb x y
  | JStr x, JStr y => String.eqb x y
  | JBool x, JBool y => Bool.eqb x y
  | _, _ => false
  end.

(** The row of [t] whose primary key [id] is [key]. *)
Definition find_row (d : db) (t : string) (key : js) : option js :=
  match table_rows d t with
  | Some rows => find (fun r => sql_eqb (get r "id") key) rows
  | None => None
  end.

(** The field PostgREST returns for column [c] of row [r], or [None]
    when an [!inner] embedding has no match (the row is dropped). *)
Fixpoint project_col (d : db) (r : js) (c : column) : option (string * js) :=
  match c with
  | Col n => Some (n, get r n)
  | Embed a t fk inner sub =>
      let fix project_sub (tr : js) (cs : list column) : option (list (string * js)) :=
        match cs with
        | [] => Some []
        | c' :: cs' =>
            match project_col d tr c', project_sub tr cs' with
            | Some p, Some fs => Some (p :: fs)
            | _, _ => None
            end
        end in
      match find_row d t (get r fk) with
      | Some tr =>
          match project_sub tr sub with
          | Some fs => Some (a, JObj fs)
          | None => if inner then None else Some (a, JNull)
          end
      | None => if inner then None else Some (a, JNull)
      end
  end.

(** The object PostgREST returns for row [r] under the select list
    [cols], or [None] when the row is dropped by an inner join. *)
Fixpoint project (d : db) (r : js) (cols : list column) : option (list (string * js)) :=
  match cols with
  | [] => Some []
  | c :: cs =>
      match project_col d r c, project d r cs with
      | Some p, Some fs => Some (p :: fs)
      | _, _ => None
      end
  end.

Fixpoint split_dot (s : string) : option (string * string) :=
  match s with
  | EmptyString => None
  | String c s' =>
      if Ascii.eqb c "." then Some (EmptyString, s')
      else match split_dot s' with
           | Some (a, b) => Some (String c a, b)
           | None => None
           end
  end.

(** The value a filter or an order key [path] names on row [r]: a column
    of [r], or [e.k], the column [k] of the row joined by the embedded
    resource [e] (named by its alias or its table). *)
Definition resolve (d : db) (cols : list column) (r : js) (path : string) : js :=
  match split_dot path with
  | None => get r path
  | Some (e, k) =>
      match find (fun c => match c with
                           | Embed a t _ _ _ => String.eqb e a || String.eqb e t
                           | Col _ => false
                           end) cols with
      | Some (Embed _ t fk _ _) =>
          match find_row d t (get r fk) with
          | Some tr => get tr k
          | None => JNull
          end
      | _ => JNull
      end
  end.

Definition eval_filter (d : db) (cols : list column) (r : js) (f : filter) : bool :=
  match f with
  | FIlike c p => match resolve d cols r c with JStr s => like_ci p s | _ => false end
  | FEq c v => sql_eqb (resolve d cols r c) v
  | FIn c vs => existsb (sql_eqb (resolve d cols r c)) vs
  end.

(** PostgreSQL's order on scalar values, [NULL] greatest. *)
Definition sql_compare (a b : js) : comparison :=
  match a, b with
  | JNum x, JNum y => Z.compare x y
  | JStr x, JStr y => String.compare x y
  | JBool x, JBool y => Bool.compare x y
  | (JUndef | JNull), (JUndef | JNull) => Eq
  | (JUndef | JNull), _ => Gt
  | _, (JUndef | JNull) => Lt
  | _, _ => Eq
  end.

Fixpoint order_compare (d : db) (cols : list column) (keys : list (string * bool)) (r s : js)
  : comparison :=
  match keys with
  | [] => Eq
  | (k, asc) :: ks =>
      let c := sql_compare (resolve d cols r k) (resolve d cols s k) in
      match (if asc then c else CompOpp c) with
      | Eq => order_compare d cols ks r s
      | c' => c'
      end
  end.

Definition row_le (d : db) (cols : list column) (keys : list (string * bool)) (r s : js * js)
  : bool :=
  match order_compare d cols keys (fst r) (fst s) with Gt => false | _ => true end.

(** The rows that survive the joins of the select list, each as the
    pair (stored row, returned object), in storage order. *)
Definition joined (d : db) (cols : list column) (rows : list js) : list (js * js) :=
  flat_map (fun r => match project d r cols with
                     | Some fs => [(r, JObj fs)]
                     | None => []
                     end) rows.

(** The rows of a query that pass the joins and the filters. *)
Definition matching (d : db) (q : query) (rows : list js) : list (js * js) :=
  List.filter (fun p => forallb (eval_filter d (q_select q) (fst p)) (q_filters q))
    (joined d (q_select q) rows).

Definition run_query (d : db) (q : query) : res response :=
  match table_rows d (q_table q) with
  | None => Err (BackendError "42P01" ("relation " ++ q_table q ++ " does not exist"))
  | Some rows =>
      let kept := matching d q rows in
      let sorted := sort_by (row_le d (q_select q) (q_order q)) kept in
      let page := match q_range q with
                  | Some (lo, hi) => window lo hi sorted
                  | None => sorted
                  end in
      Ok (mkResponse (JArr (map snd page))
                     (if q_count_exact q then JNum (Z.of_nat (List.length kept)) else JNull))
  end.

#[export] Instance memory_source (d : db) : DataSource := {
  ds_run := run_query d
}.

(** ** Lemmas on the backend *)

Lemma sql_compare_antisym a b : sql_compare a b = CompOpp (sql_compare b a).
Proof.
  destruct a, b; simpl; try reflexivity.
  - destruct b, b0; reflexivity.
  - apply Z.compare_antisym.
  - apply String.compare_antisym.
Qed.

Lemma order_compare_antisym d cols keys r s :
  order_compare d cols keys r s = CompOpp (order_compare d cols keys s r).
Proof.
  induction keys as [|[k asc] ks IH]; simpl; [reflexivity|].
  rewrite (sql_compare_antisym (resolve d cols s k)).
  destruct asc, (sql_compare (resolve d cols r k) (resolve d cols s k)); simpl; auto.
Qed.

(** The order of [ORDER BY] is total, so the stable sort sorts. *)
Lemma row_le_total d cols keys r s :
  row_le d cols keys r s = false -> row_le d cols keys s r = true.
Proof.
  unfold row_le. rewrite (order_compare_antisym d cols keys (fst r)).
  destruct (order_compare d cols keys (fst s) (fst r)); simpl; congruence.
Qed.

(** [run_query] on an existing table: the page of the sorted matching
    rows and, when asked for, their exact number. *)
Lemma run_query_table d q rows :
  table_rows d (q_table q) = Some rows ->
  run_query d q =
    Ok (mkResponse
          (JArr (map snd (match q_range q with
                          | Some (lo, hi) => window lo hi (sort_by (row_le d (q_select q) (q_order q)) (matching d q rows))
                          | None => sort_by (row_le d (q_select q) (q_order q)) (matching d q rows)
                          end)))
          (if q_count_exact q then JNum (Z.of_nat (List.length (matching d q rows))) else JNull)).
Proof. intros H. unfold run_query. now rewrite H. Qed.
