(* ===== verification/Products.v ===== *)
(** * The query compiler: [src/src/lib/products.ts]

    [fetchProducts] turns the listing parameters ([ProductFilters]) into
    one request on the [article_manufacturer] table with its article,
    category and manufacturer embedded by inner joins.  When a
    manufacturer name is given it first resolves it to manufacturer ids
    ([getManufacturerIdsByName]) and answers an empty page at once when
    no manufacturer matches.  [build_query] is the builder chain of lines
    56-83, [fetchProducts] the whole function, written against any
    [DataSource].

    The theorems show: the pagination window (C1, C2), the short-circuit
    (C3), the refinement of the spec's filter contract on the in-memory
    backend (C4), name resolution (C5), error propagation (C6), and two
    departures of the code from the spec: an id filter of [0] is dropped
    (C7), and the search text is a pattern, not a substring (C8). *)

From Stdlib Require Import ZArith List String Ascii Bool Lia Sorting.Sorted Sorting.Permutation.
From S2P Require Import Prelude JsValue Ilike Query.
Import ListNotations.
Open Scope Z_scope.
Open Scope supa_scope.

(** [sortOrder?: "asc" | "desc"]. *)
Inductive SortOrder := asc | desc.

(** [type ProductFilters]: every field is optional ([None] is
    [undefined]). *)
Record ProductFilters := mkFilters {
  reference : option string;
  manufacturerName : option string;
  manufacturerId : option Z;
  categoryId : option Z;
  sortBy : option string;
  sortOrder : option SortOrder;
  page : option Z;
  pageSize : option Z
}.

(** The select string of lines 58-64:
    [id, reference, certified_by_onee,
     article:articles!inner(id, name, category:categories!inner(id, name)),
     manufacturer:manufacturers!inner(id, name)]. *)
Definition products_select : list column :=
  [Col "id"; Col "reference"; Col "certified_by_onee";
   Embed "article" "articles" "article_id" true
     [Col "id"; Col "name"; Embed "category" "categories" "category_id" true [Col "id"; Col "name"]];
   Embed "manufacturer" "manufacturers" "manufacturer_id" true [Col "id"; Col "name"]].

(** [data?.map((m) => m.id) || []]: [m.id] throws on a [null] row, and
    [map] is not a function of a non-array. *)
Definition ids_of_data (data : js) : res (list js) :=
  match data with
  | JUndef | JNull => Ok []
  | JArr l => res_all (map (fun m => member m "id") l)
  | _ => Err (TypeError "data.map is not a function")
  end.

Section WithSource.
Context `{DataSource}.

(** Lines 27-34. *)
Definition getManufacturerIdsByName (name : string) : res (list js) :=
  r <- ds_run (ilike (select (from "manufacturers") [Col "id"] false) "name" (substring_pattern name)) ;;
  ids_of_data (r_data r).

(** The builder chain of lines 56-83, after the defaults of lines
    41-44 have been applied.  Each [if] tests the truthiness of the
    parameter, as the code does. *)
Definition build_query (reference : option string) (manufacturerId : option Z)
    (manufacturerIds : option (list js)) (categoryId : option Z)
    (sortBy : string) (sortOrder : SortOrder) (page pageSize : Z) : query :=
  let query := select (from "article_manufacturer") products_select true in
  let query := match reference with
               | Some r => if truthy (JStr r) then ilike query "reference" (substring_pattern r) else query
               | None => query
               end in
  let query := match manufacturerId with
               | Some m => if truthy (JNum m) then eq_ query "manufacturer_id" (JNum m) else query
               | None => query
               end in
  let query := match manufacturerIds with
               | Some ids => in_ query "manufacturer_id" ids
               | None => query
               end in
  let query := match categoryId with
               | Some c => if truthy (JNum c) then eq_ query "articles.category_id" (JNum c) else query
               | None => query
               end in
  let query := if truthy (JStr sortBy)
               then order query sortBy (match sortOrder with asc => true | desc => false end)
               else query in
  let from_ := (page - 1) * pageSize in
  let to := from_ + pageSize - 1 in
  range query from_ to.

(** The destructuring defaults of lines 41-44: they apply when the
    field is [undefined]. *)
Definition sortBy_d (f : ProductFilters) : string :=
  match sortBy f with Some s => s | None => "id"%string end.
Definition sortOrder_d (f : ProductFilters) : SortOrder :=
  match sortOrder f with Some o => o | None => asc end.
Definition page_d (f : ProductFilters) : Z :=
  match page f with Some p => p | None => 1 end.
Definition pageSize_d (f : ProductFilters) : Z :=
  match pageSize f with Some n => n | None => 10 end.

(** [if (manufacturerName)]. *)
Definition name_active (f : ProductFilters) : bool :=
  match manufacturerName f with Some n => truthy (JStr n) | None => false end.

Definition query_of (f : ProductFilters) (manufacturerIds : option (list js)) : query :=
  build_query (reference f) (manufacturerId f) manufacturerIds (categoryId f)
              (sortBy_d f) (sortOrder_d f) (page_d f) (pageSize_d f).

(** Lines 36-88: defaults, name resolution and its short-circuit, the
    request, [if (error) throw error], [return { data, count }]. *)
Definition fetchProducts (f : ProductFilters) : res response :=
  manufacturerIds <-
    match manufacturerName f with
    | Some n =>
        if truthy (JStr n)
        then ids <- getManufacturerIdsByName n ;; Ok (Some ids)
        else Ok None
    | None => Ok None
    end ;;
  match manufacturerIds with
  | Some [] => Ok (mkResponse (JArr []) (JNum 0))
  | _ =>
      r <- ds_run (query_of f manufacturerIds) ;;
      Ok (mkResponse (r_data r) (r_count r))
  end.
End WithSource.

(** ** The filter contract of spec section 4.1

    A stored [article_manufacturer] row is listed when its reference
    contains the search text up to case, its manufacturer is the chosen
    one and among the resolved ones, and its article's category is the
    chosen one. *)
Definition spec_keep (d : db) (f : ProductFilters) (ids : option (list js)) (r : js) : bool :=
  match reference f with
  | Some x => String.eqb x "" || match get r "reference" with JStr s => contains_ci x s | _ => false end
  | None => true
  end &&
  match manufacturerId f with
  | Some m => sql_eqb (get r "manufacturer_id") (JNum m)
  | None => true
  end &&
  match ids with
  | Some l => existsb (sql_eqb (get r "manufacturer_id")) l
  | None => true
  end &&
  match categoryId f with
  | Some c =>
      match find_row d "articles" (get r "article_id") with
      | Some a => sql_eqb (get a "category_id") (JNum c)
      | None => false
      end
  | None => true
  end.

(** The parameters the spec's contract covers: a search text with no
    pattern character, and ids that are not [0]. *)
Definition spec_params (f : ProductFilters) : Prop :=
  (forall x, reference f = Some x -> plain x = true) /\
  manufacturerId f <> Some 0 /\ categoryId f <> Some 0.

(** ** Lemmas *)

Lemma build_query_shape r m ids c sb so p ps :
  let q := build_query r m ids c sb so p ps in
  q_table q = "article_manufacturer"%string /\ q_select q = products_select /\
  q_count_exact q = true /\ q_range q = Some ((p - 1) * ps, (p - 1) * ps + ps - 1).
Proof.
  unfold build_query.
  destruct r, m, ids, c; simpl;
    repeat match goal with |- context [if ?b then _ else _] => destruct b end;
    repeat split.
Qed.

(** The filters each parameter contributes to the request. *)
Definition reference_filters (r : option string) : list filter :=
  match r with
  | Some x => if truthy (JStr x) then [FIlike "reference" (substring_pattern x)] else []
  | None => []
  end.

(** Whether a stored row passes the reference filter of the query. *)
Definition reference_kept (d : db) (f : ProductFilters) (row : js) : bool :=
  forallb (eval_filter d products_select row) (reference_filters (reference f)).

Definition id_filters (col : string) (o : option Z) : list filter :=
  match o with
  | Some m => if truthy (JNum m) then [FEq col (JNum m)] else []
  | None => []
  end.

Definition ids_filters (ids : option (list js)) : list filter :=
  match ids with
  | Some l => [FIn "manufacturer_id" l]
  | None => []
  end.

Lemma build_query_filters r m ids c sb so p ps :
  q_filters (build_query r m ids c sb so p ps) =
    reference_filters r ++ id_filters "manufacturer_id" m ++ ids_filters ids
    ++ id_filters "articles.category_id" c.
Proof.
  unfold build_query, reference_filters, id_filters, ids_filters.
  destruct r as [x|], m as [y|], ids, c as [z|];
    try destruct (truthy (JStr x)); try destruct (truthy (JNum y));
    try destruct (truthy (JNum z)); destruct (truthy (JStr sb)); reflexivity.
Qed.

Lemma keep_reference d row r :
  (forall x, r = Some x -> plain x = true) ->
  forallb (eval_filter d products_select row) (reference_filters r) =
    match r with
    | Some x => String.eqb x "" || match get row "reference" with JStr s => contains_ci x s | _ => false end
    | None => true
    end.
Proof.
  intros Hp. destruct r as [x|]; [|reflexivity].
  specialize (Hp x eq_refl). unfold reference_filters.
  replace (truthy (JStr x)) with (negb (String.eqb x "")) by reflexivity.
  destruct (String.eqb x "") eqn:E; [reflexivity|].
  cbn [negb forallb eval_filter orb].
  change (resolve d products_select row "reference") with (get row "reference").
  destruct (get row "reference"); try reflexivity.
  rewrite like_substring by exact Hp. apply andb_true_r.
Qed.

Lemma keep_manufacturerId d row m :
  m <> Some 0 ->
  forallb (eval_filter d products_select row) (id_filters "manufacturer_id" m) =
    match m with Some m => sql_eqb (get row "manufacturer_id") (JNum m) | None => true end.
Proof.
  intros Hm. destruct m as [m|]; [|reflexivity]. simpl.
  destruct (Z.eqb_spec m 0); [congruence|]. simpl. apply andb_true_r.
Qed.

Lemma keep_ids d row ids :
  forallb (eval_filter d products_select row) (ids_filters ids) =
    match ids with Some l => existsb (sql_eqb (get row "manufacturer_id")) l | None => true end.
Proof. destruct ids; simpl; [apply andb_true_r | reflexivity]. Qed.

Lemma keep_categoryId d row c :
  c <> Some 0 ->
  forallb (eval_filter d products_select row) (id_filters "articles.category_id" c) =
    match c with
    | Some c =>
        match find_row d "articles" (get row "article_id") with
        | Some a => sql_eqb (get a "category_id") (JNum c)
        | None => false
        end
    | None => true
    end.
Proof.
  intros Hc. destruct c as [c|]; [|reflexivity]. simpl.
  destruct (Z.eqb_spec c 0); [congruence|]. simpl. rewrite andb_true_r.
  change (resolve d products_select row "articles.category_id") with
    (match find_row d "articles" (get row "article_id") with
     | Some tr => get tr "category_id"
     | None => JNull
     end).
  now destruct (find_row d "articles" (get row "article_id")).
Qed.

Lemma build_query_keep d f ids row :
  spec_params f ->
  forallb (eval_filter d products_select row) (q_filters (query_of f ids)) = spec_keep d f ids row.
Proof.
  intros (Hplain & Hm & Hc). unfold query_of, spec_keep.
  rewrite build_query_filters, !forallb_app, keep_reference, keep_manufacturerId,
    keep_ids, keep_categoryId by assumption.
  now rewrite !andb_assoc.
Qed.

Lemma build_query_order r m ids c sb so p ps :
  q_order (build_query r m ids c sb so p ps) =
    if truthy (JStr sb) then [(sb, match so with asc => true | desc => false end)] else [].
Proof.
  unfold build_query.
  destruct r as [x|], m as [y|], ids, c as [z|];
    try destruct (truthy (JStr x)); try destruct (truthy (JNum y));
    try destruct (truthy (JNum z)); destruct (truthy (JStr sb)); reflexivity.
Qed.

(** The order keys the request carries: [order(sortBy, {ascending})]
    unless [sortBy] is empty. *)
Definition order_keys (f : ProductFilters) : list (string * bool) :=
  if truthy (JStr (sortBy_d f))
  then [(sortBy_d f, match sortOrder_d f with asc => true | desc => false end)]
  else [].

(** The listing the spec describes: the joined rows that satisfy the
    filter contract, in storage order. *)
Definition listing (d : db) (f : ProductFilters) (ids : option (list js)) (rows : list js)
  : list (js * js) :=
  List.filter (fun p => spec_keep d f ids (fst p)) (joined d products_select rows).

Lemma fetch_no_name `{DataSource} f :
  name_active f = false ->
  fetchProducts f = (r <- ds_run (query_of f None) ;; Ok (mkResponse (r_data r) (r_count r))).
Proof.
  unfold fetchProducts, name_active. intros Hn.
  destruct (manufacturerName f); [|reflexivity]. now rewrite Hn.
Qed.

Lemma fetch_name `{DataSource} f n ids :
  manufacturerName f = Some n -> truthy (JStr n) = true ->
  getManufacturerIdsByName n = Ok ids -> ids <> [] ->
  fetchProducts f = (r <- ds_run (query_of f (Some ids)) ;; Ok (mkResponse (r_data r) (r_count r))).
Proof.
  unfold fetchProducts. intros -> -> Hids Hne. rewrite Hids. simpl.
  destruct ids; [congruence | reflexivity].
Qed.

Lemma matching_query_of d f ids rows :
  spec_params f ->
  matching d (query_of f ids) rows = listing d f ids rows.
Proof.
  intros Hp. unfold matching, listing.
  destruct (build_query_shape (reference f) (manufacturerId f) ids (categoryId f)
              (sortBy_d f) (sortOrder_d f) (page_d f) (pageSize_d f)) as (_ & Hsel & _).
  fold (query_of f ids) in Hsel. rewrite Hsel.
  apply filter_ext. intros [r o]. now apply build_query_keep.
Qed.

(** The in-memory backend's answer to the compiled request. *)
Lemma run_query_of d f ids rows :
  table_rows d "article_manufacturer" = Some rows ->
  run_query d (query_of f ids) =
    Ok (mkResponse
          (JArr (map snd (window ((page_d f - 1) * pageSize_d f)
                                 ((page_d f - 1) * pageSize_d f + pageSize_d f - 1)
                                 (sort_by (row_le d products_select (order_keys f))
                                          (matching d (query_of f ids) rows)))))
          (JNum (Z.of_nat (List.length (matching d (query_of f ids) rows))))).
Proof.
  intros Ht.
  destruct (build_query_shape (reference f) (manufacturerId f) ids (categoryId f)
              (sortBy_d f) (sortOrder_d f) (page_d f) (pageSize_d f)) as (Htab & Hsel & Hcnt & Hrng).
  fold (query_of f ids) in Htab, Hsel, Hcnt, Hrng.
  rewrite run_query_table with (rows := rows) by now rewrite Htab.
  replace (q_order (query_of f ids)) with (order_keys f)
    by (unfold query_of; now rewrite build_query_order).
  now rewrite Hsel, Hcnt, Hrng.
Qed.

Definition with_page (f : ProductFilters) (p ps : option Z) : ProductFilters :=
  mkFilters (reference f) (manufacturerName f) (manufacturerId f) (categoryId f)
            (sortBy f) (sortOrder f) p ps.

Definition with_ids (f : ProductFilters) (m c : option Z) : ProductFilters :=
  mkFilters (reference f) (manufacturerName f) m c (sortBy f) (sortOrder f) (page f) (pageSize f).

Lemma run_query_count d q r :
  run_query d q = Ok r ->
  exists rows, table_rows d (q_table q) = Some rows /\
    r_count r = if q_count_exact q then JNum (Z.of_nat (List.length (matching d q rows))) else JNull.
Proof.
  unfold run_query. destruct (table_rows d (q_table q)) as [rows|]; [|discriminate].
  intros H. injection H as <-. eauto.
Qed.

Lemma joined_id d rows :
  joined d [Col "id"] rows = map (fun r => (r, JObj [("id"%string, get r "id")])) rows.
Proof. induction rows as [|r rows IH]; simpl; [reflexivity | now rewrite IH]. Qed.

Lemma member_id_obj v : member (JObj [("id"%string, v)]) "id" = Ok v.
Proof. reflexivity. Qed.

(** ** Sample data *)

Local Open Scope string_scope.

Definition sample_rows : list js :=
  [JObj [("id", JNum 10); ("reference", JStr "AB-1"); ("certified_by_onee", JBool true);
         ("article_id", JNum 3); ("manufacturer_id", JNum 1)];
   JObj [("id", JNum 11); ("reference", JStr "xab-2"); ("certified_by_onee", JBool false);
         ("article_id", JNum 3); ("manufacturer_id", JNum 2)];
   JObj [("id", JNum 12); ("reference", JStr "CD-3"); ("certified_by_onee", JBool false);
         ("article_id", JNum 4); ("manufacturer_id", JNum 2)]].

Definition sample_manufacturers : list js :=
  [JObj [("id", JNum 1); ("name", JStr "Acme")]; JObj [("id", JNum 2); ("name", JStr "Bolt")]].

Definition sample_db : db :=
  [("manufacturers", sample_manufacturers);
   ("categories", [JObj [("id", JNum 7); ("name", JStr "Cable")];
                   JObj [("id", JNum 8); ("name", JStr "Duct")]]);
   ("articles", [JObj [("id", JNum 3); ("name", JStr "Wire"); ("category_id", JNum 7)];
                 JObj [("id", JNum 4); ("name", JStr "Tube"); ("category_id", JNum 8)]]);
   ("article_manufacturer", sample_rows)].

(** Reference search ["ab"], sorted by reference, descending, page 1. *)
Definition sample_filters : ProductFilters :=
  mkFilters (Some "ab") (Some "") None None (Some "reference") (Some desc) (Some 1) (Some 10).

Definition failing_source : DataSource :=
  {| ds_run := fun _ => Err (BackendError "PGRST301" "JWT expired") |}.


(** ** Properties *)

(** C1: On a backend that answers as the spec's data interface says,
    [fetchProducts] without a manufacturer name returns the rows that
    satisfy the spec's filter contract (case-insensitive reference
    substring, manufacturer id, category id of the article), ordered by
    the sort key, cut to the window [[(page-1)*pageSize,
    (page-1)*pageSize + pageSize - 1]], with the exact number of matching
    rows as [count]. *)
Theorem fetchProducts_refines d f rows :
  table_rows d "article_manufacturer" = Some rows ->
  spec_params f -> name_active f = false ->
  @fetchProducts (memory_source d) f =
    Ok (mkResponse
          (JArr (map snd (window ((page_d f - 1) * pageSize_d f)
                                 ((page_d f - 1) * pageSize_d f + pageSize_d f - 1)
                                 (sort_by (row_le d products_select (order_keys f))
                                          (listing d f None rows)))))
          (JNum (Z.of_nat (List.length (listing d f None rows))))).
Proof.
  intros Ht Hp Hn. rewrite fetch_no_name by exact Hn.
  change (@ds_run (memory_source d)) with (run_query d).
  now rewrite run_query_of with (rows := rows), matching_query_of.
Qed.

Lemma fetchProducts_refines_witness :
  @fetchProducts (memory_source sample_db) sample_filters =
    Ok (mkResponse
          (JArr (map snd (window 0 9 (sort_by (row_le sample_db products_select [("reference"%string, false)])
                                              (listing sample_db sample_filters None sample_rows)))))
          (JNum (Z.of_nat (List.length (listing sample_db sample_filters None sample_rows))))).
Proof.
  apply (fetchProducts_refines sample_db sample_filters sample_rows).
  - reflexivity.
  - split; [intros x Hx; injection Hx as <-; reflexivity | split; discriminate].
  - reflexivity.
Defined.

(** C2: For page [>= 1] and page size [>= 1], the page [fetchProducts]
    returns has [min(pageSize, max(0, count - (page-1)*pageSize))] rows:
    a full page while rows remain, the remainder on the last page,
    nothing past it. *)
Theorem fetchProducts_page_size d f rows :
  table_rows d "article_manufacturer" = Some rows -> name_active f = false ->
  1 <= page_d f -> 1 <= pageSize_d f ->
  exists l n, @fetchProducts (memory_source d) f = Ok (mkResponse (JArr l) (JNum n)) /\
    Z.of_nat (List.length l) = Z.min (pageSize_d f) (Z.max 0 (n - (page_d f - 1) * pageSize_d f)).
Proof.
  intros Ht Hn Hp Hs. rewrite fetch_no_name by exact Hn.
  change (@ds_run (memory_source d)) with (run_query d).
  rewrite run_query_of with (rows := rows) by exact Ht. simpl.
  eexists _, _. split; [reflexivity|].
  rewrite length_map, window_length by nia.
  rewrite (Permutation_length (sort_by_perm _ _)).
  replace ((page_d f - 1) * pageSize_d f + pageSize_d f - 1 - (page_d f - 1) * pageSize_d f + 1)
    with (pageSize_d f) by ring.
  nia.
Qed.

Lemma fetchProducts_page_size_witness :
  exists l n, @fetchProducts (memory_source sample_db) sample_filters = Ok (mkResponse (JArr l) (JNum n)) /\
    Z.of_nat (List.length l) = Z.min 10 (Z.max 0 (n - 0 * 10)).
Proof.
  apply (fetchProducts_page_size sample_db sample_filters sample_rows);
    [reflexivity | reflexivity | vm_compute; discriminate | vm_compute; discriminate].
Defined.

Lemma build_query_page_indep r m ids c sb so p ps p' ps' :
  let q := build_query r m ids c sb so p ps in let q' := build_query r m ids c sb so p' ps' in
  q_table q' = q_table q /\ q_select q' = q_select q /\
  q_filters q' = q_filters q /\ q_count_exact q' = q_count_exact q.
Proof.
  cbn zeta.
  destruct (build_query_shape r m ids c sb so p ps) as (A1 & A2 & A3 & _).
  destruct (build_query_shape r m ids c sb so p' ps') as (B1 & B2 & B3 & _).
  rewrite A1, A2, A3, B1, B2, B3, !build_query_filters. auto.
Qed.

Lemma query_of_with_page f p ps ids :
  let q := query_of f ids in let q' := query_of (with_page f p ps) ids in
  q_table q' = q_table q /\ q_select q' = q_select q /\
  q_filters q' = q_filters q /\ q_count_exact q' = q_count_exact q.
Proof.
  exact (build_query_page_indep (reference f) (manufacturerId f) ids (categoryId f)
           (sortBy_d f) (sortOrder_d f) (page_d f) (pageSize_d f) _ _).
Qed.

(** C3: The [count] [fetchProducts] returns does not depend on the page
    or the page size: it is the number of all matching rows, whatever
    window is shown. *)
Theorem fetchProducts_count_page_independent d f p ps r r' :
  @fetchProducts (memory_source d) f = Ok r ->
  @fetchProducts (memory_source d) (with_page f p ps) = Ok r' ->
  r_count r = r_count r'.
Proof.
  unfold fetchProducts. cbn [manufacturerName with_page].
  destruct (match manufacturerName f with
            | Some n => if truthy (JStr n) then ids <- @getManufacturerIdsByName (memory_source d) n ;; Ok (Some ids) else Ok None
            | None => Ok None
            end) as [ids|e]; simpl; [|discriminate].
  destruct ids as [[|i l]|];
    [intros H1 H2; injection H1 as <-; injection H2 as <-; reflexivity| |];
    intros H1 H2; apply res_bind_eq_Ok in H1 as (a & Ha & H1); injection H1 as <-;
    apply res_bind_eq_Ok in H2 as (a' & Ha' & H2); injection H2 as <-; simpl;
    apply run_query_count in Ha as (rows & Hr & ->);
    apply run_query_count in Ha' as (rows' & Hr' & ->);
    match goal with |- context [query_of (with_page f p ps) ?o] =>
      destruct (query_of_with_page f p ps o) as (T & S & F & C) end;
    rewrite T in Hr'; rewrite Hr in Hr'; injection Hr' as <-;
    unfold matching; now rewrite S, F, C.
Qed.

Lemma fetchProducts_count_page_independent_witness :
  exists r r',
    @fetchProducts (memory_source sample_db) sample_filters = Ok r /\
    @fetchProducts (memory_source sample_db) (with_page sample_filters (Some 2) (Some 1)) = Ok r' /\
    r_count r = r_count r'.
Proof.
  do 2 eexists. split; [reflexivity|]. split; [reflexivity|].
  apply (fetchProducts_count_page_independent sample_db sample_filters (Some 2) (Some 1));
    reflexivity.
Defined.

(** C4: When a manufacturer name is given and resolves to no
    manufacturer, [fetchProducts] answers an empty page with [count = 0]
    without sending the listing request, on any backend. *)
Theorem fetchProducts_short_circuit `{DataSource} f n :
  manufacturerName f = Some n -> n <> ""%string -> getManufacturerIdsByName n = Ok [] ->
  fetchProducts f = Ok (mkResponse (JArr []) (JNum 0)).
Proof.
  intros Hn Hne Hids. unfold fetchProducts. rewrite Hn.
  replace (truthy (JStr n)) with true
    by (simpl; apply String.eqb_neq in Hne; now rewrite Hne).
  now rewrite Hids.
Qed.

Lemma fetchProducts_short_circuit_witness :
  @fetchProducts (memory_source sample_db) (mkFilters None (Some "zz") None None None None None None)
    = Ok (mkResponse (JArr []) (JNum 0)).
Proof.
  apply (@fetchProducts_short_circuit (memory_source sample_db) _ "zz");
    [reflexivity | discriminate | reflexivity].
Defined.

Lemma name_filter_spec d r n :
  plain n = true ->
  eval_filter d [Col "id"] r (FIlike "name" (substring_pattern n)) && true =
    match get r "name" with JStr s => contains_ci n s | _ => false end.
Proof.
  intros Hn. rewrite andb_true_r. unfold eval_filter.
  change (resolve d [Col "id"] r "name") with (get r "name").
  destruct (get r "name"); try reflexivity. now apply like_substring.
Qed.

(** C5: [getManufacturerIdsByName] resolves a name with no pattern
    character to the ids of exactly the manufacturers whose name
    contains it up to case, in storage order. *)
Theorem getManufacturerIdsByName_spec d n rows :
  table_rows d "manufacturers" = Some rows -> plain n = true ->
  @getManufacturerIdsByName (memory_source d) n =
    Ok (map (fun r => get r "id")
            (List.filter (fun r => match get r "name" with JStr s => contains_ci n s | _ => false end) rows)).
Proof.
  intros Ht Hn. unfold getManufacturerIdsByName.
  change (@ds_run (memory_source d)) with (run_query d).
  rewrite run_query_table with (rows := rows) by exact Ht.
  unfold matching.
  cbn [q_select q_filters q_order q_range q_count_exact ilike select from add_filter app
       res_bind r_data].
  rewrite joined_id, sort_by_id by reflexivity. clear Ht.
  rewrite (filter_ext _ (fun p => match get (fst p) "name" with JStr s => contains_ci n s | _ => false end))
    by (intros [r o]; exact (name_filter_spec d r n Hn)).
  induction rows as [|r rows IH]; [reflexivity|]. simpl.
  destruct (match get r "name" with JStr s => contains_ci n s | _ => false end); [|exact IH].
  simpl in *. now rewrite IH.
Qed.

Lemma getManufacturerIdsByName_spec_witness :
  @getManufacturerIdsByName (memory_source sample_db) "OL" =
    Ok (map (fun r => get r "id")
            (List.filter (fun r => match get r "name" with JStr s => contains_ci "OL" s | _ => false end)
                         sample_manufacturers)).
Proof. apply getManufacturerIdsByName_spec; reflexivity. Defined.

(** C6: [fetchProducts] itself never fails: it rejects only with the
    error of the name-resolution request or of the listing request it
    sent. *)
Theorem fetchProducts_error `{DataSource} f e :
  fetchProducts f = Err e ->
  (exists n, manufacturerName f = Some n /\ getManufacturerIdsByName n = Err e) \/
  (exists ids, ds_run (query_of f ids) = Err e).
Proof.
  unfold fetchProducts.
  destruct (manufacturerName f) as [n|].
  - destruct (truthy (JStr n)).
    + destruct (getManufacturerIdsByName n) as [ids|e'] eqn:E; simpl.
      * destruct ids; [discriminate|].
        destruct (ds_run _) eqn:R; simpl; [discriminate|]. intros [= ->]. eauto.
      * intros [= ->]. eauto.
    + simpl. destruct (ds_run _) eqn:R; simpl; [discriminate|]. intros [= ->]. eauto.
  - simpl. destruct (ds_run _) eqn:R; simpl; [discriminate|]. intros [= ->]. eauto.
Qed.

Lemma fetchProducts_error_witness :
  (exists n, manufacturerName sample_filters = Some n /\
             @getManufacturerIdsByName failing_source n = Err (BackendError "PGRST301" "JWT expired")) \/
  (exists ids, @ds_run failing_source (query_of sample_filters ids) = Err (BackendError "PGRST301" "JWT expired")).
Proof. apply (@fetchProducts_error failing_source). reflexivity. Defined.

(** C7: An id filter of [0] is dropped: [if (manufacturerId)] and
    [if (categoryId)] test truthiness, so choosing the id [0] lists the
    same rows as choosing no filter. *)
Theorem fetchProducts_zero_id `{DataSource} f :
  fetchProducts (with_ids f (Some 0) (categoryId f)) = fetchProducts (with_ids f None (categoryId f)) /\
  fetchProducts (with_ids f (manufacturerId f) (Some 0)) = fetchProducts (with_ids f (manufacturerId f) None).
Proof. split; reflexivity. Qed.

(** C8: The search text is spliced into an [ILIKE] pattern unescaped.
    The query carries the filter [reference ILIKE '%x%'], which keeps a
    row exactly when its reference matches that pattern, not when it
    contains [x] as the spec's substring filter says.  So for any plain
    texts [a] and [b], searching [a_b] keeps every reference containing
    [a], any one character, then [b], and searching [a%b] keeps every
    reference containing [a], then anything, then [b]. *)
Theorem reference_search_is_pattern d f x ids :
  reference f = Some x -> x <> ""%string ->
  incl (reference_filters (reference f)) (q_filters (query_of f ids)) /\
  (forall row, reference_kept d f row =
                 match get row "reference" with JStr s => like_ci (substring_pattern x) s | _ => false end) /\
  (forall a b, plain a = true -> plain b = true ->
     (x = (a ++ "_" ++ b)%string -> forall row u c v,
        get row "reference" = JStr (u ++ a ++ String c b ++ v) -> reference_kept d f row = true) /\
     (x = (a ++ "%" ++ b)%string -> forall row u m v,
        get row "reference" = JStr (u ++ a ++ m ++ b ++ v) -> reference_kept d f row = true)).
Proof.
  intros Hr Hx.
  assert (Hk : forall row, reference_kept d f row =
            match get row "reference" with JStr s => like_ci (substring_pattern x) s | _ => false end).
  { intros row. unfold reference_kept, reference_filters. rewrite Hr.
    replace (truthy (JStr x)) with true by (simpl; now rewrite (proj2 (String.eqb_neq _ _) Hx)).
    cbn [forallb eval_filter]. change (resolve d products_select row "reference") with (get row "reference").
    destruct (get row "reference"); try reflexivity. apply andb_true_r. }
  split; [|split; [exact Hk|]].
  - intros y Hy. unfold query_of. rewrite build_query_filters. apply in_or_app. now left.
  - intros a b Ha Hb. split; intros -> row; intros u; [intros c v | intros m v]; intros Hrow;
      rewrite Hk, Hrow; unfold substring_pattern; apply like_pct_skip;
      autorewrite with supa_rw; rewrite like_plain_app by exact Ha.
    + cbn [append]. rewrite like_underscore, like_plain_app by exact Hb. apply like_pct_any.
    + apply like_pct_skip. rewrite like_plain_app by exact Hb. apply like_pct_any.
Qed.

Lemma reference_search_is_pattern_witness :
  let f := mkFilters (Some "a_-1"%string) None None None None None None None in
  incl (reference_filters (reference f)) (q_filters (query_of f None)) /\
  (forall row, reference_kept sample_db f row =
                 match get row "reference" with JStr s => like_ci (substring_pattern "a_-1") s | _ => false end) /\
  (forall a b, plain a = true -> plain b = true ->
     ("a_-1"%string = (a ++ "_" ++ b)%string -> forall row u c v,
        get row "reference" = JStr (u ++ a ++ String c b ++ v) -> reference_kept sample_db f row = true) /\
     ("a_-1"%string = (a ++ "%" ++ b)%string -> forall row u m v,
        get row "reference" = JStr (u ++ a ++ m ++ b ++ v) -> reference_kept sample_db f row = true)).
Proof. apply reference_search_is_pattern; [reflexivity | discriminate]. Defined.
