(* ===== verification/Normalize.v ===== *)
(** * Response normalization: [page.tsx] lines 57-71

    The rows of a listing response are mapped to the [Product] shape of
    [src/src/lib/products.ts] (lines 3-14).  The code allows each
    embedded resource to come back either as an object or as a
    one-element array: [Array.isArray(x) ? x[0]?.name : x?.name].  The
    values are kept as they are at run time ([js]): a missing name is
    [undefined], not a string.

    The theorems show that every row the backend returns for the listing
    request normalizes to the product of its joined rows (C11), that the
    category name of an article
    returned in array form is lost (C13), contrary to spec section 8,
    and that on a database with the schema's column types every listing
    row normalizes to a value of the TypeScript type [Product] (C36). *)

From Stdlib Require Import ZArith List String Ascii Bool Lia.
From S2P Require Import Prelude JsValue Query Products.
Import ListNotations.
Open Scope Z_scope.
Open Scope supa_scope.

(** [type Product] of products.ts, with its nested object types. *)
Module Product.
Record named := mkNamed { name : js }.
Record article_t := mkArticle { article_name : js; category : named }.
Record t := mkProduct {
  id : js;
  reference : js;
  certified_by_onee : js;
  article : article_t;
  manufacturer : named
}.
End Product.

(** [Array.isArray(x) ? x[0]?.name : x?.name], lines 63 and 69. *)
Definition name_of (x : js) : res js :=
  if is_array x
  then first <- index x 0 ;; Ok (opt_member first "name")
  else Ok (opt_member x "name").

(** The object literal of lines 58-71 for one [item]. *)
Definition normalize_item (item : js) : res Product.t :=
  id <- member item "id" ;;
  reference <- member item "reference" ;;
  certified <- member item "certified_by_onee" ;;
  article <- member item "article" ;;
  article_name <- name_of article ;;
  category_name <-
    (if is_array (opt_member article "category")
     then category <- member article "category" ;;
          first <- index category 0 ;;
          Ok (opt_member first "name")
     else Ok (opt_member (opt_member article "category") "name")) ;;
  manufacturer <- member item "manufacturer" ;;
  manufacturer_name <- name_of manufacturer ;;
  Ok (Product.mkProduct id reference certified
        (Product.mkArticle article_name (Product.mkNamed category_name))
        (Product.mkNamed manufacturer_name)).

(** [(data || []).map(...)]: [map] throws on a truthy non-array. *)
Definition normalize (data : js) : res (list Product.t) :=
  match js_or data (JArr []) with
  | JArr items => res_all (map normalize_item items)
  | _ => Err (TypeError "(data || []).map is not a function")
  end.

(** The TypeScript type [Product] (products.ts, lines 3-14) as a check
    on run-time values: [id: number], [reference: string],
    [certified_by_onee: boolean] and the three names [string]. *)
Definition is_number (v : js) : bool := match v with JNum _ => true | _ => false end.
Definition is_string (v : js) : bool := match v with JStr _ => true | _ => false end.
Definition is_boolean (v : js) : bool := match v with JBool _ => true | _ => false end.

Definition product_typed (p : Product.t) : bool :=
  is_number (Product.id p) && is_string (Product.reference p) &&
  is_boolean (Product.certified_by_onee p) &&
  is_string (Product.article_name (Product.article p)) &&
  is_string (Product.name (Product.category (Product.article p))) &&
  is_string (Product.name (Product.manufacturer p)).

(** The column types of the four tables (spec section 3): every stored
    value of the columns the listing reads has its declared type. *)
Definition column_typed (check : js -> bool) (col : string) (d : db) (t : string) : bool :=
  match table_rows d t with
  | Some rows => forallb (fun r => check (get r col)) rows
  | None => false
  end.

Definition schema_typed (d : db) : bool :=
  column_typed is_number "id" d "article_manufacturer" &&
  column_typed is_string "reference" d "article_manufacturer" &&
  column_typed is_boolean "certified_by_onee" d "article_manufacturer" &&
  column_typed is_string "name" d "articles" &&
  column_typed is_string "name" d "categories" &&
  column_typed is_string "name" d "manufacturers".

(** ** Lemmas *)

Lemma member_not_nullish v k v' : member v k = Ok v' -> nullish v = false /\ v' = get v k.
Proof. unfold member. destruct (nullish v); [discriminate | now intros [= <-]]. Qed.

Lemma normalize_length data ps :
  normalize data = Ok ps -> exists items, js_or data (JArr []) = JArr items /\
                                          List.length ps = List.length items.
Proof.
  unfold normalize. destruct (js_or data (JArr [])); try discriminate.
  intros H. exists l. split; [reflexivity|]. rewrite (res_all_length _ _ H). apply length_map.
Qed.

(** The product a stored [article_manufacturer] row stands for: its
    own columns and the names of the rows it joins. *)
Definition expected_product (d : db) (r : js) : Product.t :=
  let a := match find_row d "articles"%string (get r "article_id") with Some a => a | None => JUndef end in
  let c := match find_row d "categories"%string (get a "category_id") with Some c => c | None => JUndef end in
  let m := match find_row d "manufacturers"%string (get r "manufacturer_id") with Some m => m | None => JUndef end in
  Product.mkProduct (get r "id") (get r "reference") (get r "certified_by_onee")
    (Product.mkArticle (get a "name") (Product.mkNamed (get c "name")))
    (Product.mkNamed (get m "name")).

Lemma normalize_project d r fs :
  project d r products_select = Some fs ->
  (exists a c m,
    find_row d "articles" (get r "article_id") = Some a /\
    find_row d "categories" (get a "category_id") = Some c /\
    find_row d "manufacturers" (get r "manufacturer_id") = Some m) /\
  normalize_item (JObj fs) = Ok (expected_product d r).
Proof.
  intros H. simpl in H. unfold expected_product.
  destruct (find_row d "articles" (get r "article_id")) as [a|] eqn:Ea; [|discriminate].
  destruct (find_row d "categories" (get a "category_id")) as [c|] eqn:Ec; [|discriminate].
  destruct (find_row d "manufacturers" (get r "manufacturer_id")) as [m|] eqn:Em; [|discriminate].
  injection H as <-. split; [eauto 7 | reflexivity].
Qed.

(** Every joined row of the listing normalizes to its product. *)
Lemma normalize_joined_rows d rows (l : list (js * js)) :
  incl l (joined d products_select rows) ->
  normalize (JArr (map snd l)) = Ok (map (fun p => expected_product d (fst p)) l).
Proof.
  unfold normalize. simpl. induction l as [|[r o] l IH]; intros Hin; [reflexivity|].
  assert (Hj : In (r, o) (joined d products_select rows)) by (apply Hin; now left).
  unfold joined in Hj. apply in_flat_map in Hj as (r' & _ & Hr').
  destruct (project d r' products_select) as [fs|] eqn:Ep; [|contradiction].
  destruct Hr' as [[= <- <-] | []].
  simpl. rewrite (proj2 (normalize_project _ _ _ Ep)), IH by (intros x Hx; apply Hin; now right).
  reflexivity.
Qed.

Lemma column_typed_in check col d t rows r :
  column_typed check col d t = true -> table_rows d t = Some rows -> In r rows -> check (get r col) = true.
Proof.
  unfold column_typed. intros H Ht Hin. rewrite Ht in H.
  exact (proj1 (forallb_forall _ _) H r Hin).
Qed.

Lemma find_row_typed check col d t k r :
  column_typed check col d t = true -> find_row d t k = Some r -> check (get r col) = true.
Proof.
  unfold find_row. destruct (table_rows d t) as [rows|] eqn:Ht; [|discriminate].
  intros Hc Hf. apply find_some in Hf as [Hin _]. eauto using column_typed_in.
Qed.


(** ** Properties *)

Local Open Scope string_scope.

(** C11: Every row the backend returns for the listing request (the
    select list of products.ts, with its inner joins) normalizes without
    error to the product built from the stored row and the article,
    category and manufacturer rows it joins. *)
Theorem normalize_joined d r fs :
  project d r products_select = Some fs ->
  exists a c m,
    find_row d "articles" (get r "article_id") = Some a /\
    find_row d "categories" (get a "category_id") = Some c /\
    find_row d "manufacturers" (get r "manufacturer_id") = Some m /\
    normalize_item (JObj fs) =
      Ok (Product.mkProduct (get r "id") (get r "reference") (get r "certified_by_onee")
            (Product.mkArticle (get a "name") (Product.mkNamed (get c "name")))
            (Product.mkNamed (get m "name"))).
Proof.
  intros H. destruct (normalize_project _ _ _ H) as ((a & c & m & Ea & Ec & Em) & Hn).
  exists a, c, m. rewrite Hn. unfold expected_product. now rewrite Ea, Ec, Em.
Qed.

Definition sample_joined_row : list (string * js) :=
  [("id", JNum 10); ("reference", JStr "AB-1"); ("certified_by_onee", JBool true);
   ("article", JObj [("id", JNum 3); ("name", JStr "Wire");
                     ("category", JObj [("id", JNum 7); ("name", JStr "Cable")])]);
   ("manufacturer", JObj [("id", JNum 1); ("name", JStr "Acme")])].

Lemma normalize_joined_witness :
  exists a c m,
    find_row sample_db "articles" (JNum 3) = Some a /\
    find_row sample_db "categories" (get a "category_id") = Some c /\
    find_row sample_db "manufacturers" (JNum 1) = Some m /\
    normalize_item (JObj sample_joined_row) =
      Ok (Product.mkProduct (JNum 10) (JStr "AB-1") (JBool true)
            (Product.mkArticle (get a "name") (Product.mkNamed (get c "name")))
            (Product.mkNamed (get m "name"))).
Proof.
  exact (normalize_joined sample_db (hd JNull sample_rows) sample_joined_row
           ltac:(vm_compute; reflexivity)).
Defined.

(** C13: When the article comes back as an array, its category name is
    lost: [item.article?.category] reads a property of the array, which
    is [undefined], so the normalized category name is [undefined]
    whatever the array holds.  Spec section 8 expects the array form
    [[{name:"X", category:[{name:"Y"}]}]] to normalize to category
    ["Y"]. *)
Theorem normalize_array_article_category item p :
  is_array (get item "article") = true -> normalize_item item = Ok p ->
  Product.name (Product.category (Product.article p)) = JUndef.
Proof.
  intros Harr H. unfold normalize_item in H. res_simpl.
  apply member_not_nullish in Ha2 as [_ ->].
  destruct (get item "article") as [| | | | |l|]; try discriminate.
  subst p. simpl in Ha4. now injection Ha4 as <-.
Qed.

Definition spec_array_item : js :=
  JObj [("id", JNum 1); ("reference", JStr "R"); ("certified_by_onee", JBool false);
        ("article", JArr [JObj [("name", JStr "X"); ("category", JArr [JObj [("name", JStr "Y")]])]]);
        ("manufacturer", JObj [("name", JStr "M")])].

Lemma normalize_array_article_category_witness :
  exists p, normalize_item spec_array_item = Ok p /\
            Product.name (Product.category (Product.article p)) = JUndef.
Proof.
  eexists. split; [reflexivity|].
  apply (normalize_array_article_category spec_array_item); reflexivity.
Defined.

(** C36: On a database whose columns have the types of the schema,
    every row of the listing response normalizes, and to a value of the
    TypeScript type [Product]: numbers, strings and booleans where the
    type declares them, no [undefined] name. *)
Theorem normalize_typed d rows (l : list (js * js)) :
  schema_typed d = true -> table_rows d "article_manufacturer" = Some rows ->
  incl l (joined d products_select rows) ->
  exists ps, normalize (JArr (map snd l)) = Ok ps /\ Forall (fun p => product_typed p = true) ps.
Proof.
  intros Hs Ht Hl. eexists. split; [exact (normalize_joined_rows d rows l Hl)|].
  apply Forall_forall. intros p (x & <- & Hx)%in_map_iff.
  destruct x as [r o]. pose proof (Hl _ Hx) as Hj. simpl.
  unfold joined in Hj. apply in_flat_map in Hj as (r' & Hr' & Hp).
  destruct (project d r' products_select) as [fs|] eqn:Ep; [|contradiction].
  destruct Hp as [[= <- <-] | []].
  destruct (proj1 (normalize_project _ _ _ Ep)) as (a & c & m & Ea & Ec & Em).
  unfold schema_typed in Hs. repeat rewrite andb_true_iff in Hs.
  destruct Hs as (((((H1 & H2) & H3) & H4) & H5) & H6).
  unfold expected_product, product_typed. simpl. rewrite Ea, Ec, Em.
  rewrite (column_typed_in _ _ _ _ _ _ H1 Ht Hr'), (column_typed_in _ _ _ _ _ _ H2 Ht Hr'),
    (column_typed_in _ _ _ _ _ _ H3 Ht Hr'), (find_row_typed _ _ _ _ _ _ H4 Ea),
    (find_row_typed _ _ _ _ _ _ H5 Ec), (find_row_typed _ _ _ _ _ _ H6 Em).
  reflexivity.
Qed.

Lemma normalize_typed_witness :
  exists ps, normalize (JArr (map snd (joined sample_db products_select sample_rows))) = Ok ps /\
             Forall (fun p => product_typed p = true) ps.
Proof.
  apply (normalize_typed sample_db sample_rows); [vm_compute; reflexivity | reflexivity | intros x Hx; exact Hx].
Defined.
