(* ===== verification/DataTable.v ===== *)
(** * The presentation logic: [src/src/components/products/DataTable.tsx]

    [DataTable] is a stateless component: everything it decides is a
    function of its props.  The decisions it makes are modelled here:
    the page count ([totalPages], line 70), the sort toggle
    ([handleSort], lines 72-74), the values of the two filter selects and
    the filter they report back (lines 88-124), the column headers (lines
    133-139), what the table body shows (lines 156-188), and the
    pagination footer (lines 193-221).  The [Dashboard] file composes the
    callbacks of these controls with the controller's setters.

    The props, the callbacks (as [Intent]s emitted for user [Action]s,
    [emit]), the header arrows, the row cells, the option items of the
    selects and the whole view ([DataTable]) follow; [Wiring] connects
    them to the controller.

    The theorems show the page count bounds (C14), the sort toggle
    (C15), the select round trip (C16) and the round trip of the
    rendered option items through the change handler (C12). *)

From Stdlib Require Import ZArith List String Ascii Bool Lia DecimalString DecimalZ.
From S2P Require Import Prelude JsValue Products Normalize.
Import ListNotations.
Open Scope Z_scope.
Open Scope supa_scope.

(** [Math.max(1, Math.ceil(total / pageSize))], line 70. *)
Definition totalPages (total pageSize : Z) : Z := Z.max 1 (ceil_div total pageSize).

(** [handleSort], lines 72-74: the pair passed to [onSortChange]. *)
Definition handleSort (sortBy : string) (sortOrder : SortOrder) (key : string)
  : string * SortOrder :=
  (key, if String.eqb sortBy key && match sortOrder with asc => true | desc => false end
        then desc else asc).

(** The sortable columns of lines 133-139, with their labels. *)
Definition columns : list (string * string) :=
  [("articles.name", "Article Name"); ("articles.category.name", "Category");
   ("manufacturers.name", "Manufacturer"); ("reference", "Reference");
   ("certified_by_onee", "Certified by ONEE")]%string.

(** [n.toString()] for an integer. *)
Definition string_of_Z (z : Z) : string := NilEmpty.string_of_int (Z.to_int z).

(** [Number(s)] on the strings [toString] produces (an optional [-]
    and decimal digits; the empty string is [0], as in JavaScript);
    [None] is [NaN]. *)
Definition number_of_string (s : string) : option Z :=
  option_map Z.of_int (NilEmpty.int_of_string s).

(** The value of a filter select, [filter?.toString() || '__all__']
    (lines 89 and 108): the id's decimal string is never empty, so the
    [||] only applies to [undefined]. *)
Definition select_value (filter : option Z) : string :=
  match filter with
  | Some z => let s := string_of_Z z in if truthy (JStr s) then s else "__all__"%string
  | None => "__all__"%string
  end.

(** [onValueChange], lines 90-92 and 109-111: the filter reported to
    [onManufacturerFilter] / [onCategoryFilter].  The outer [None] is a
    [NaN] the selects never produce, since their values are
    [select_value]s of ids. *)
Definition select_change (val : string) : option (option Z) :=
  if String.eqb val "__all__" then Some None
  else match number_of_string val with
       | Some z => Some (Some z)
       | None => None
       end.

(** What the table body shows, lines 156-188. *)
Inductive body :=
| BodyLoading
| BodyEmpty
| BodyRows (rows : list Product.t).

Definition body_view (products : list Product.t) (loading : bool) : body :=
  if loading then BodyLoading
  else match products with
       | [] => BodyEmpty
       | _ => BodyRows products
       end.

(** The footer, lines 193-221: the counts shown and whether each
    pagination button is enabled. *)
Record footer := mkFooter {
  shown : nat;
  of_total : Z;
  page_label : Z * Z;
  prev_enabled : bool;
  next_enabled : bool
}.

Definition footer_view (products : list Product.t) (total page pageSize : Z) : footer :=
  let tp := totalPages total pageSize in
  mkFooter (List.length products) total (page, tp) (negb (page <=? 1)) (negb (tp <=? page)).

(** The data props of [DataTableProps], lines 31-49; the five callbacks
    are the [Intent]s below.  The option lists are the values the
    dashboard stores, kept as run-time values. *)
Record DataTableProps := mkProps {
  p_products : list Product.t;
  p_total : Z;
  p_page : Z;
  p_pageSize : Z;
  p_sortBy : string;
  p_sortOrder : SortOrder;
  p_referenceSearch : string;
  p_manufacturerOptions : js;
  p_categoryOptions : js;
  p_manufacturerFilter : option Z;
  p_categoryFilter : option Z;
  p_loading : bool
}.

(** The callback calls of the props (lines 36, 37, 41, 45 and 47). *)
Inductive Intent :=
| PageChange (page : Z)
| SortChange (key : string) (order : SortOrder)
| ReferenceSearch (v : string)
| ManufacturerFilter (f : option Z)
| CategoryFilter (f : option Z).

(** What the user does to the table: type in the search box (line 85),
    pick a select value (lines 90 and 109), click a column header (line
    143) or a pagination button (lines 203 and 215). *)
Inductive Action :=
| TypeSearch (v : string)
| PickManufacturer (val : string)
| PickCategory (val : string)
| ClickColumn (key : string)
| ClickPrevButton
| ClickNextButton.

(** The callbacks an action calls: [None] when the action cannot happen
    (a select value that is not a number, a header that is not one of
    the columns); no call when the button is [disabled]. *)
Definition emit (p : DataTableProps) (a : Action) : option (list Intent) :=
  match a with
  | TypeSearch v => Some [ReferenceSearch v]
  | PickManufacturer val => option_map (fun f => [ManufacturerFilter f]) (select_change val)
  | PickCategory val => option_map (fun f => [CategoryFilter f]) (select_change val)
  | ClickColumn key =>
      if existsb (fun c => String.eqb (fst c) key) columns
      then Some [let '(k, o) := handleSort (p_sortBy p) (p_sortOrder p) key in SortChange k o]
      else None
  | ClickPrevButton => Some (if p_page p <=? 1 then [] else [PageChange (p_page p - 1)])
  | ClickNextButton =>
      Some (if totalPages (p_total p) (p_pageSize p) <=? p_page p then [] else [PageChange (p_page p + 1)])
  end.

(** The arrow of a column header, lines 146-151. *)
Definition sort_indicator (sortBy : string) (sortOrder : SortOrder) (key : string) : option SortOrder :=
  if String.eqb sortBy key then Some sortOrder else None.

(** The header row, lines 133-153: key, label and arrow of each column. *)
Definition header_view (p : DataTableProps) : list (string * string * option SortOrder) :=
  map (fun '(key, label) => (key, label, sort_indicator (p_sortBy p) (p_sortOrder p) key)) columns.

(** [x.toString()] (and [String(x)] inside arrays); [undefined] and
    [null] have no [toString]. *)
Fixpoint js_toString (v : js) : res string :=
  match v with
  | JUndef | JNull => Err (TypeError "Cannot read properties of undefined (reading 'toString')")
  | JBool b => Ok (if b then "true" else "false")%string
  | JNum z => Ok (string_of_Z z)
  | JStr s => Ok s
  | JObj _ => Ok "[object Object]"%string
  | JArr l =>
      let fix go (l : list js) : res (list string) :=
        match l with
        | [] => Ok []
        | x :: l' =>
            s <- match x with JUndef | JNull => Ok ""%string | _ => js_toString x end ;;
            ss <- go l' ;; Ok (s :: ss)
        end in
      ss <- go l ;; Ok (String.concat "," ss)
  end.

(** The items of a filter select, lines 97-104 and 116-123: the
    ["__all__"] item, then [m.id.toString()] and [m.name] for each
    option; [map] throws on a non-array and [m.id] on a [null] option. *)
Definition option_item (m : js) : res (string * js) :=
  id <- member m "id" ;; s <- js_toString id ;; Ok (s, get m "name").

Definition option_items (allLabel : string) (opts : js) : res (list (string * js)) :=
  match opts with
  | JArr l =>
      items <- res_all (map option_item l) ;;
      Ok (("__all__"%string, JStr allLabel) :: items)
  | _ => Err (TypeError "options.map is not a function")
  end.

(** A row of the table, lines 176-187: its background ([idx % 2 === 0])
    and its five cells. *)
Record row := mkRow {
  row_even : bool;
  row_cells : list js
}.

Definition row_of (idx : nat) (p : Product.t) : row :=
  mkRow (Nat.even idx)
        [Product.article_name (Product.article p); Product.name (Product.category (Product.article p));
         Product.name (Product.manufacturer p); Product.reference p;
         JStr (if truthy (Product.certified_by_onee p) then "Yes" else "No")%string].

Fixpoint rows_from (idx : nat) (ps : list Product.t) : list row :=
  match ps with
  | [] => []
  | p :: ps' => row_of idx p :: rows_from (S idx) ps'
  end.

(** Everything [DataTable] renders (lines 51-224). *)
Record DataTableView := mkDataTableView {
  v_search : string;
  v_manufacturer : string;
  v_manufacturer_items : res (list (string * js));
  v_category : string;
  v_category_items : res (list (string * js));
  v_headers : list (string * string * option SortOrder);
  v_body : body;
  v_rows : list row;
  v_footer : footer
}.

Definition DataTable (p : DataTableProps) : DataTableView :=
  let b := body_view (p_products p) (p_loading p) in
  mkDataTableView (p_referenceSearch p)
    (select_value (p_manufacturerFilter p)) (option_items "All Manufacturers" (p_manufacturerOptions p))
    (select_value (p_categoryFilter p)) (option_items "All Categories" (p_categoryOptions p))
    (header_view p) b
    (match b with BodyRows ps => rows_from 0 ps | _ => [] end)
    (footer_view (p_products p) (p_total p) (p_page p) (p_pageSize p)).

(** ** Lemmas *)

Definition flip (o : SortOrder) : SortOrder := match o with asc => desc | desc => asc end.

Lemma int_of_string_of_Z z :
  NilEmpty.int_of_string (string_of_Z z) = Some (Z.to_int z).
Proof. apply NilEmpty.isi. Qed.

Lemma string_of_Z_not_empty z : string_of_Z z <> ""%string.
Proof.
  intros H. pose proof (int_of_string_of_Z z) as E. rewrite H in E.
  injection E as E. apply (f_equal Z.of_int) in E. rewrite DecimalZ.of_to in E.
  subst z. vm_compute in H. discriminate H.
Qed.

Lemma string_of_Z_not_all z : string_of_Z z <> "__all__"%string.
Proof.
  intros H. pose proof (int_of_string_of_Z z) as E. rewrite H in E. discriminate E.
Qed.

(** The value of an id's select item reports the id back. *)
Lemma select_change_string_of_Z z : select_change (string_of_Z z) = Some (Some z).
Proof.
  unfold select_change. rewrite (proj2 (String.eqb_neq _ _) (string_of_Z_not_all z)).
  unfold number_of_string. rewrite int_of_string_of_Z. simpl. now rewrite DecimalZ.of_to.
Qed.

#[export] Hint Rewrite select_change_string_of_Z : supa_rw.

Lemma option_item_ok m z : get m "id" = JNum z -> option_item m = Ok (string_of_Z z, get m "name").
Proof. unfold option_item. destruct m; simpl; intros H; try discriminate; now rewrite H. Qed.

(** A click on a header always changes the sort: the column, or the
    direction of the active column. *)
Lemma handleSort_changes sortBy sortOrder key :
  handleSort sortBy sortOrder key <> (sortBy, sortOrder).
Proof.
  unfold handleSort. destruct (String.eqb_spec sortBy key) as [->|Hne], sortOrder;
    simpl; congruence.
Qed.

(** ** Properties *)

(** C14: With a positive page size and a nonnegative total, there is at
    least one page, the pages hold every row, and the last page is not
    empty unless there are no rows at all. *)
Theorem totalPages_bounds total pageSize :
  0 < pageSize -> 0 <= total ->
  1 <= totalPages total pageSize /\
  total <= totalPages total pageSize * pageSize /\
  (totalPages total pageSize - 1) * pageSize < Z.max 1 total.
Proof.
  intros Hs Ht. unfold totalPages.
  pose proof (ceil_div_spec total pageSize Hs).
  pose proof (ceil_div_nonneg total pageSize Hs Ht).
  destruct (Z.max_spec 1 (ceil_div total pageSize)) as [[? ->] | [? ->]]; nia.
Qed.

Lemma totalPages_bounds_witness :
  1 <= totalPages 21 10 /\ 21 <= totalPages 21 10 * 10 /\ (totalPages 21 10 - 1) * 10 < Z.max 1 21.
Proof. apply totalPages_bounds; lia. Defined.

(** C15: Clicking the active sort column flips the direction, clicking
    another column sorts it ascending; two clicks on the same column
    restore the direction. *)
Theorem handleSort_toggle sortBy sortOrder key :
  handleSort sortBy sortOrder key =
    (key, if String.eqb sortBy key then flip sortOrder else asc) /\
  snd (handleSort key (snd (handleSort key sortOrder key)) key) = sortOrder.
Proof.
  unfold handleSort. rewrite String.eqb_refl.
  destruct (String.eqb sortBy key), sortOrder; split; reflexivity.
Qed.

(** C16: The filter a select reports back is the filter it displays:
    [select_change (select_value f) = f] for every filter, [undefined]
    included. *)
Theorem select_roundtrip filter : select_change (select_value filter) = Some filter.
Proof.
  destruct filter as [z|]; [|reflexivity].
  unfold select_value. cbv zeta.
  replace (truthy (JStr (string_of_Z z))) with true
    by (simpl; now rewrite (proj2 (String.eqb_neq _ _) (string_of_Z_not_empty z))).
  now autorewrite with supa_rw.
Qed.

Local Open Scope string_scope.

(** C12: The items a filter select renders round-trip through its
    change handler: for options whose ids are numbers, the items are
    "__all__" and each option's id string, and choosing them reports
    [undefined] and each option's id, with the options' names as the
    items' labels. *)
Theorem option_items_roundtrip label opts ids :
  Forall2 (fun m z => get m "id" = JNum z) opts ids ->
  exists items, option_items label (JArr opts) = Ok items /\
    map (fun it => select_change (fst it)) items = Some None :: map (fun z => Some (Some z)) ids /\
    map snd items = JStr label :: map (fun m => get m "name") opts.
Proof.
  unfold option_items. intros H. induction H as [|m z opts ids Hm _ (items & Hi & Hc & Hn)].
  - eexists. split; [reflexivity | split; reflexivity].
  - destruct (res_all (map option_item opts)) as [l|] eqn:E; [|discriminate]. injection Hi as <-.
    eexists. split; [simpl; rewrite (option_item_ok m z Hm), E; reflexivity|].
    simpl in Hc, Hn |- *. injection Hc as Hc. injection Hn as Hn.
    autorewrite with supa_rw. now rewrite Hc, Hn.
Qed.

Lemma option_items_roundtrip_witness :
  exists items,
    option_items "All" (JArr [JObj [("id", JNum 3); ("name", JStr "Acme")]]) = Ok items /\
    map (fun it => select_change (fst it)) items = Some None :: map (fun z => Some (Some z)) [3] /\
    map snd items = JStr "All" :: map (fun m => get m "name") [JObj [("id", JNum 3); ("name", JStr "Acme")]].
Proof. apply option_items_roundtrip. repeat constructor. Defined.
