(* ===== verification/Filters.v ===== *)
(** * The directory loader: [src/src/lib/filters.ts]

    [fetchManufacturers] and [fetchCategories] load the option lists of
    the two filter selects: [select("id, name").order("name")] on their
    table, throwing the backend error.  Both are written against any
    [DataSource]; on the in-memory backend the list is every row of the
    table, as [{id, name}], sorted by name (C17). *)

From Stdlib Require Import ZArith List String Ascii Bool Lia Sorting.Sorted Sorting.Permutation.
From S2P Require Import Prelude JsValue Query.
Import ListNotations.
Open Scope Z_scope.
Open Scope supa_scope.

(** The request both functions send, on table [t]. *)
Definition directory_query (t : string) : query :=
  order (select (from t) [Col "id"; Col "name"] false) "name" true.

Section WithSource.
Context `{DataSource}.

(** Lines 3-7. *)
Definition fetchManufacturers : res js :=
  r <- ds_run (directory_query "manufacturers") ;; Ok (r_data r).

(** Lines 9-13. *)
Definition fetchCategories : res js :=
  r <- ds_run (directory_query "categories") ;; Ok (r_data r).
End WithSource.

(** ** The contract of spec section 4.2 *)

(** Name order: [ORDER BY name], [NULL] last. *)
Definition name_le (r s : js) : bool :=
  match sql_compare (get r "name") (get s "name") with Gt => false | _ => true end.

Definition option_of (r : js) : js := JObj [("id"%string, get r "id"); ("name"%string, get r "name")].

Lemma name_le_total r s : name_le r s = false -> name_le s r = true.
Proof.
  unfold name_le. rewrite (sql_compare_antisym (get s "name")).
  destruct (sql_compare (get r "name") (get s "name")); simpl; congruence.
Qed.

Lemma joined_options d rows :
  joined d [Col "id"; Col "name"] rows = map (fun r => (r, option_of r)) rows.
Proof. induction rows as [|r rows IH]; simpl; [reflexivity | now rewrite IH]. Qed.

Lemma directory_run d t rows :
  table_rows d t = Some rows ->
  run_query d (directory_query t) = Ok (mkResponse (JArr (map option_of (sort_by name_le rows))) JNull).
Proof.
  intros Ht. rewrite run_query_table with (rows := rows) by exact Ht.
  unfold matching. cbn [q_select q_filters q_order q_range q_count_exact directory_query
                         order select from app].
  rewrite joined_options, filter_all_true by reflexivity.
  rewrite (sort_by_map _ name_le (fun r => (r, option_of r))) by
    (intros a b; unfold row_le, name_le; simpl;
     change (resolve d [Col "id"; Col "name"] a "name") with (get a "name");
     change (resolve d [Col "id"; Col "name"] b "name") with (get b "name");
     destruct (sql_compare (get a "name") (get b "name")); reflexivity).
  now rewrite map_map.
Qed.

Lemma directory_sorted d t rows :
  table_rows d t = Some rows ->
  exists sorted, run_query d (directory_query t) = Ok (mkResponse (JArr (map option_of sorted)) JNull) /\
    Permutation sorted rows /\ Sorted (fun a b => name_le a b = true) sorted.
Proof.
  intros Ht. exists (sort_by name_le rows).
  split; [now apply directory_run|]. split.
  - apply sort_by_perm.
  - apply sort_by_sorted, name_le_total.
Qed.

(** ** Properties *)

(** C17: On the in-memory backend, [fetchManufacturers] and
    [fetchCategories] return every row of their table as [{id, name}],
    each exactly once, sorted by name. *)
Theorem directory_loads_sorted d ms cs :
  table_rows d "manufacturers" = Some ms -> table_rows d "categories" = Some cs ->
  (exists sorted, @fetchManufacturers (memory_source d) = Ok (JArr (map option_of sorted)) /\
     Permutation sorted ms /\ Sorted (fun a b => name_le a b = true) sorted) /\
  (exists sorted, @fetchCategories (memory_source d) = Ok (JArr (map option_of sorted)) /\
     Permutation sorted cs /\ Sorted (fun a b => name_le a b = true) sorted).
Proof.
  intros Hm Hc. unfold fetchManufacturers, fetchCategories.
  change (@ds_run (memory_source d)) with (run_query d).
  destruct (directory_sorted d _ _ Hm) as (s1 & E1 & P1 & S1).
  destruct (directory_sorted d _ _ Hc) as (s2 & E2 & P2 & S2).
  rewrite E1, E2. simpl. split; [exists s1 | exists s2]; auto.
Qed.

Lemma directory_loads_sorted_witness :
  let d := [("manufacturers", [JObj [("id"%string, JNum 2); ("name"%string, JStr "Bolt")];
                               JObj [("id"%string, JNum 1); ("name"%string, JStr "Acme")]]);
            ("categories", [])]%string in
  (exists sorted, @fetchManufacturers (memory_source d) = Ok (JArr (map option_of sorted)) /\
     Permutation sorted (JObj [("id"%string, JNum 2); ("name"%string, JStr "Bolt")] ::
                         [JObj [("id"%string, JNum 1); ("name"%string, JStr "Acme")]]) /\
     Sorted (fun a b => name_le a b = true) sorted) /\
  (exists sorted, @fetchCategories (memory_source d) = Ok (JArr (map option_of sorted)) /\
     Permutation sorted [] /\ Sorted (fun a b => name_le a b = true) sorted).
Proof. intros d. apply directory_loads_sorted; reflexivity. Defined.
