(* ===== verification/Dashboard.v ===== *)
(** * The listing controller: [ProductsDashboard] of
    [src/src/app/dashboard/products/page.tsx]

    The component keeps its listing state in twelve [useState] cells
    (lines 16-29, the record [State]) and runs three effects: the
    session redirect (lines 31-36), the directory loads on mount (lines
    38-42) and the product fetch, re-run whenever one of its seven
    dependencies changes (lines 44-76).  The user acts through the
    callbacks it hands to [DataTable] (lines 94-114).

    The asynchronous world is explicit.  A [World] holds the React state,
    the promises issued and not yet settled ([pending], a finite map from
    the issue number of each request to what it is), the number of
    requests issued so far, the session signal and the route.  An
    [Event] is a user action, a session change, or the settlement of
    one pending promise, in any order: [step] is the executable
    transition function and [run] folds it over a trace.  React's
    rendering is modelled as follows.  The setters of one handler, or of
    one settled promise, are applied together and the page re-renders.
    After every render the fetch effect runs when one of its
    dependencies (line 76) differs from the previous render's
    ([render_effects]).  The effect's own [setLoading(true)] causes one
    more render, checked the same way ([after_effect]).  A second run
    would set [loading] to [true] again, a value it already has, and
    React does not re-render on that, so two checks cover every case.
    With the dependency list of line 76 a settlement never re-runs the
    effect; with [loading] among the dependencies every settled fetch
    would start new ones (the termination property C37 depends on it).

    The theorems are invariants by induction on traces (C18-C20), the
    behaviour of single steps (C21-C24), traces that exhibit the
    departures from the spec (C25-C28), and the end-to-end property
    composing the controller with the query compiler and the
    normalization (C10). *)

From stdpp Require Import base gmap strings.
From Stdlib Require Import ZArith List String Bool Lia.
From S2P Require Import Prelude JsValue Query Products Normalize DataTable Filters.
Import ListNotations.
Open Scope Z_scope.
Open Scope supa_scope.

#[export] Instance SortOrder_eq_dec : EqDecision SortOrder.
Proof. solve_decision. Defined.

Module Controller.

(** The session signal of [useSession()]: [undefined] while it is
    restored, [null] without a session. *)
Inductive Session := SessionPending | SessionAbsent | SessionPresent.

#[export] Instance Session_eq_dec : EqDecision Session.
Proof. solve_decision. Defined.

(** The [useState] cells of lines 16-29. *)
Record State := mkState {
  products : list Product.t;
  total : Z;
  page : Z;
  pageSize : Z;
  sortBy : string;
  sortOrder : SortOrder;
  referenceSearch : string;
  manufacturerOptions : js;
  categoryOptions : js;
  manufacturerFilter : option Z;
  categoryFilter : option Z;
  loading : bool
}.

Definition initial_state : State :=
  mkState [] 0 1 10 "id" asc "" (JArr []) (JArr []) None None false.

(** The setters. *)
Definition setProducts (s : State) (v : list Product.t) : State :=
  mkState v (total s) (page s) (pageSize s) (sortBy s) (sortOrder s) (referenceSearch s)
    (manufacturerOptions s) (categoryOptions s) (manufacturerFilter s) (categoryFilter s) (loading s).
Definition setTotal (s : State) (v : Z) : State :=
  mkState (products s) v (page s) (pageSize s) (sortBy s) (sortOrder s) (referenceSearch s)
    (manufacturerOptions s) (categoryOptions s) (manufacturerFilter s) (categoryFilter s) (loading s).
Definition setPage (s : State) (v : Z) : State :=
  mkState (products s) (total s) v (pageSize s) (sortBy s) (sortOrder s) (referenceSearch s)
    (manufacturerOptions s) (categoryOptions s) (manufacturerFilter s) (categoryFilter s) (loading s).
Definition setSortBy (s : State) (v : string) : State :=
  mkState (products s) (total s) (page s) (pageSize s) v (sortOrder s) (referenceSearch s)
    (manufacturerOptions s) (categoryOptions s) (manufacturerFilter s) (categoryFilter s) (loading s).
Definition setSortOrder (s : State) (v : SortOrder) : State :=
  mkState (products s) (total s) (page s) (pageSize s) (sortBy s) v (referenceSearch s)
    (manufacturerOptions s) (categoryOptions s) (manufacturerFilter s) (categoryFilter s) (loading s).
Definition setReferenceSearch (s : State) (v : string) : State :=
  mkState (products s) (total s) (page s) (pageSize s) (sortBy s) (sortOrder s) v
    (manufacturerOptions s) (categoryOptions s) (manufacturerFilter s) (categoryFilter s) (loading s).
Definition setManufacturerOptions (s : State) (v : js) : State :=
  mkState (products s) (total s) (page s) (pageSize s) (sortBy s) (sortOrder s) (referenceSearch s)
    v (categoryOptions s) (manufacturerFilter s) (categoryFilter s) (loading s).
Definition setCategoryOptions (s : State) (v : js) : State :=
  mkState (products s) (total s) (page s) (pageSize s) (sortBy s) (sortOrder s) (referenceSearch s)
    (manufacturerOptions s) v (manufacturerFilter s) (categoryFilter s) (loading s).
Definition setManufacturerFilter (s : State) (v : option Z) : State :=
  mkState (products s) (total s) (page s) (pageSize s) (sortBy s) (sortOrder s) (referenceSearch s)
    (manufacturerOptions s) (categoryOptions s) v (categoryFilter s) (loading s).
Definition setCategoryFilter (s : State) (v : option Z) : State :=
  mkState (products s) (total s) (page s) (pageSize s) (sortBy s) (sortOrder s) (referenceSearch s)
    (manufacturerOptions s) (categoryOptions s) (manufacturerFilter s) v (loading s).
Definition setLoading (s : State) (v : bool) : State :=
  mkState (products s) (total s) (page s) (pageSize s) (sortBy s) (sortOrder s) (referenceSearch s)
    (manufacturerOptions s) (categoryOptions s) (manufacturerFilter s) (categoryFilter s) v.

(** The dependency list of the fetch effect, line 76. *)
Definition fetch_deps (s : State) :=
  (referenceSearch s, manufacturerFilter s, categoryFilter s, sortBy s, sortOrder s, page s, pageSize s).

(** The argument of [fetchProducts], lines 47-56. *)
Definition fetch_params (s : State) : ProductFilters :=
  mkFilters (Some (referenceSearch s)) (Some "") (manufacturerFilter s) (categoryFilter s)
            (Some (sortBy s)) (Some (sortOrder s)) (Some (page s)) (Some (pageSize s)).

(** [count || 0], line 73. *)
Definition count_or_zero (count : js) : Z :=
  match js_or count (JNum 0) with JNum n => n | _ => 0 end.

(** The [.then] callback of lines 57-74: map the rows, then set the
    products and the total; a [TypeError] of the mapping rejects before
    either setter runs. *)
Definition on_fetched (s : State) (r : response) : res State :=
  mapped <- normalize (r_data r) ;;
  Ok (setTotal (setProducts s mapped) (count_or_zero (r_count r))).

(** A settled [fetchProducts] promise: the [.then] callback when it
    fulfils, then [.finally(() => setLoading(false))] in every case.  A
    rejection is not caught: the state keeps its products. *)
Definition settle_fetch (s : State) (outcome : res response) : State :=
  let s' := match outcome with
            | Ok r => match on_fetched s r with Ok s' => s' | Err _ => s end
            | Err _ => s
            end in
  setLoading s' false.

(** A promise not yet settled. *)
Inductive Pending :=
| PFetch (params : ProductFilters)
| PManufacturers
| PCategories.

Record World := mkWorld {
  ui : State;
  pending : gmap nat Pending;
  issued : nat;
  session : Session;
  route : string;
  mounted : bool
}.

Definition with_ui (w : World) (s : State) : World :=
  mkWorld s (pending w) (issued w) (session w) (route w) (mounted w).

Definition issue (w : World) (p : Pending) : World :=
  mkWorld (ui w) (<[issued w := p]> (pending w)) (S (issued w)) (session w) (route w) (mounted w).

(** Lines 31-36 (and the render-time check of lines 86-89). *)
Definition auth_effect (w : World) : World :=
  if decide (session w = SessionAbsent)
  then mkWorld (ui w) (pending w) (issued w) (session w) "/auth" (mounted w)
  else w.

(** Lines 38-42. *)
Definition directory_effect (w : World) : World :=
  issue (issue w PManufacturers) PCategories.

(** Lines 45-56: [setLoading(true)], then the request. *)
Definition fetch_effect (w : World) : World :=
  issue (with_ui w (setLoading (ui w) true)) (PFetch (fetch_params (ui w))).

(** The effect's own [setLoading(true)] re-renders the page; the fetch
    effect runs again when a dependency of that render differs from the
    one it ran in ([prev]).  A second run sets [loading] to [true]
    again, a value it already has, and React does not re-render on
    that, so nothing follows. *)
Definition after_effect (prev : State) (w : World) : World :=
  if decide (fetch_deps prev = fetch_deps (ui w)) then w else fetch_effect w.

(** A re-render after a state update: the fetch effect runs when one of
    its dependencies (line 76) differs from the previous render's
    ([prev]), followed by the re-render its [setLoading(true)] causes.
    Every update goes through it: handlers, settled requests and loaded
    options alike. *)
Definition render_effects (prev : State) (w : World) : World :=
  if decide (fetch_deps prev = fetch_deps (ui w)) then w
  else after_effect (ui w) (fetch_effect w).

(** The first render: the three effects in declaration order, then the
    re-render caused by [setLoading(true)]. *)
Definition mount (w : World) : World :=
  let w0 := mkWorld (ui w) (pending w) (issued w) (session w) (route w) true in
  after_effect (ui w0) (fetch_effect (directory_effect (auth_effect w0))).

(** A re-render after a handler changed the state to [s']. *)
Definition commit (w : World) (s' : State) : World := render_effects (ui w) (with_ui w s').

Inductive Event :=
| Mount
| SessionChange (s : Session)
| TypeReference (v : string)
| SelectManufacturer (val : string)
| SelectCategory (val : string)
| ClickHeader (key : string)
| ClickPrev
| ClickNext
| SettleFetch (k : nat) (outcome : res response)
| SettleOptions (k : nat) (outcome : res js).

(** The handlers [DataTable] calls, composed with the setters the
    dashboard passes to it (lines 99-113); [None] is a select value that
    is not one of the select's items. *)
Definition handle (s : State) (e : Event) : option State :=
  match e with
  | TypeReference v => Some (setReferenceSearch s v)
  | SelectManufacturer val => option_map (setManufacturerFilter s) (select_change val)
  | SelectCategory val => option_map (setCategoryFilter s) (select_change val)
  | ClickHeader key =>
      let '(k, o) := handleSort (sortBy s) (sortOrder s) key in
      Some (setSortOrder (setSortBy s k) o)
  | ClickPrev =>
      Some (if prev_enabled (footer_view (products s) (total s) (page s) (pageSize s))
            then setPage s (page s - 1) else s)
  | ClickNext =>
      Some (if next_enabled (footer_view (products s) (total s) (page s) (pageSize s))
            then setPage s (page s + 1) else s)
  | _ => None
  end.

Definition step (w : World) (e : Event) : option World :=
  match e with
  | Mount => if mounted w then None else Some (mount w)
  | _ =>
    if negb (mounted w) then None else
    match e with
    | SessionChange s' =>
        Some (auth_effect (mkWorld (ui w) (pending w) (issued w) s' (route w) (mounted w)))
    | SettleFetch k outcome =>
        match pending w !! k with
        | Some (PFetch _) =>
            Some (render_effects (ui w)
                    (mkWorld (settle_fetch (ui w) outcome) (delete k (pending w)) (issued w)
                             (session w) (route w) (mounted w)))
        | _ => None
        end
    | SettleOptions k outcome =>
        let s := ui w in
        let s' := match pending w !! k, outcome with
                  | Some PManufacturers, Ok data => Some (setManufacturerOptions s data)
                  | Some PCategories, Ok data => Some (setCategoryOptions s data)
                  | Some PManufacturers, Err _ | Some PCategories, Err _ => Some s
                  | _, _ => None
                  end in
        match s' with
        | Some s' =>
            Some (render_effects (ui w)
                    (mkWorld s' (delete k (pending w)) (issued w) (session w) (route w) (mounted w)))
        | None => None
        end
    | _ =>
        match handle (ui w) e with
        | Some s' => Some (commit w s')
        | None => None
        end
    end
  end.

Fixpoint run (w : World) (es : list Event) : option World :=
  match es with
  | [] => Some w
  | e :: es' => match step w e with Some w' => run w' es' | None => None end
  end.

Definition init_world (s : Session) : World :=
  mkWorld initial_state ∅ 0 s "/dashboard/products" false.


(** What the page renders, lines 78-118: a spinner while the session
    is restored, nothing without a session (after [router.replace]), and
    otherwise the table with its body, its footer, and the extra
    "Loading..." line of line 116. *)
Inductive PageView :=
| ViewSpinner
| ViewNothing
| ViewDashboard (table_body : body) (table_footer : footer) (loading_line : bool).

Definition render (w : World) : PageView :=
  match session w with
  | SessionPending => ViewSpinner
  | SessionAbsent => ViewNothing
  | SessionPresent =>
      let s := ui w in
      ViewDashboard (body_view (products s) (loading s))
                    (footer_view (products s) (total s) (page s) (pageSize s)) (loading s)
  end.

(** ** Lemmas *)

Section RunInvariant.
Variable P : World -> Prop.
Hypothesis step_P : forall w e w', P w -> step w e = Some w' -> P w'.

Lemma run_invariant w es w' : P w -> run w es = Some w' -> P w'.
Proof.
  revert w. induction es as [|e es IH]; simpl; intros w Hw H.
  - now injection H as <-.
  - destruct (step w e) as [w1|] eqn:E; [|discriminate]. eauto.
Qed.
End RunInvariant.

Lemma run_app w es1 es2 :
  run w (es1 ++ es2) = match run w es1 with Some w' => run w' es2 | None => None end.
Proof.
  revert w. induction es1 as [|e es IH]; simpl; intros w; [reflexivity|].
  destruct (step w e); [apply IH | reflexivity].
Qed.

(** The fetch effect's [setLoading(true)] does not touch its own
    dependencies, nor do the settlements. *)
Lemma fetch_effect_deps w : fetch_deps (ui (fetch_effect w)) = fetch_deps (ui w).
Proof. reflexivity. Qed.

Lemma fetch_deps_settle_fetch s o : fetch_deps (settle_fetch s o) = fetch_deps s.
Proof.
  unfold settle_fetch. destruct o as [r|]; [|reflexivity].
  destruct (on_fetched s r) as [s'|] eqn:E; [|reflexivity].
  unfold on_fetched in E. destruct (normalize _); simpl in E; [|discriminate].
  now injection E as <-.
Qed.

Lemma after_effect_fetch prev w :
  fetch_deps prev = fetch_deps (ui w) -> after_effect prev (fetch_effect w) = fetch_effect w.
Proof. intros H. unfold after_effect. rewrite fetch_effect_deps. now rewrite decide_True. Qed.

Lemma render_effects_same prev w : fetch_deps prev = fetch_deps (ui w) -> render_effects prev w = w.
Proof. intros H. unfold render_effects. now rewrite decide_True. Qed.

Lemma render_effects_changed prev w :
  fetch_deps prev <> fetch_deps (ui w) -> render_effects prev w = fetch_effect w.
Proof. intros H. unfold render_effects. rewrite decide_False by exact H. now apply after_effect_fetch. Qed.

(** A handler's re-render runs the fetch effect exactly when a
    dependency changed. *)
Lemma commit_eq w s' :
  commit w s' = if decide (fetch_deps (ui w) = fetch_deps s') then with_ui w s' else fetch_effect (with_ui w s').
Proof.
  unfold commit. case_decide; [now apply render_effects_same | now apply render_effects_changed].
Qed.

Lemma mount_eq w :
  mount w = fetch_effect (directory_effect (auth_effect
              (mkWorld (ui w) (pending w) (issued w) (session w) (route w) true))).
Proof. unfold mount. apply after_effect_fetch. unfold auth_effect. now case_decide. Qed.

(** A settled request or a loaded option list leaves the fetch
    dependencies alone: its re-render runs no effect. *)
Ltac settled_render H :=
  rewrite render_effects_same in H by (cbn [ui]; first [symmetry; apply fetch_deps_settle_fetch | reflexivity]).

Lemma ui_commit w s' : ui (commit w s') = s' \/ ui (commit w s') = setLoading s' true.
Proof. rewrite commit_eq. destruct (decide _); auto. Qed.

Lemma ui_mount w : ui (mount w) = setLoading (ui w) true.
Proof.
  rewrite mount_eq. unfold fetch_effect, directory_effect, auth_effect. simpl.
  destruct (decide _); reflexivity.
Qed.

(** What a step does to the React state: nothing, [setLoading(true)]
    (the first render), a handler followed by a re-render, a settled
    fetch, or a settled directory load. *)
Lemma step_ui w e w' :
  step w e = Some w' ->
  ui w' = ui w \/ (e = Mount /\ ui w' = setLoading (ui w) true) \/
  (exists s', handle (ui w) e = Some s' /\ (ui w' = s' \/ ui w' = setLoading s' true)) \/
  (exists k o, e = SettleFetch k o /\ ui w' = settle_fetch (ui w) o) \/
  (exists k d, e = SettleOptions k (Ok d) /\
     (ui w' = setManufacturerOptions (ui w) d \/ ui w' = setCategoryOptions (ui w) d)).
Proof.
  unfold step. intros H. destruct (mounted w) eqn:Hm.
  - destruct e as [| s0 | v | v | v | key | | | k o | k o]; cbv beta iota delta [negb] in H;
      try discriminate.
    all: try (destruct (handle (ui w) _) eqn:E; [|discriminate]; injection H as <-;
              eauto 6 using ui_commit; fail).
    + injection H as <-. unfold auth_effect. left. destruct (decide _); reflexivity.
    + destruct (pending w !! k) as [[]|]; try discriminate. settled_render H. injection H as <-.
      do 3 right. left. exists k, o. split; reflexivity.
    + destruct (pending w !! k) as [[]|], o; try discriminate; settled_render H; injection H as <-;
        first [left; reflexivity
              | do 4 right; eexists _, _; split; [reflexivity | (left; reflexivity) || (right; reflexivity)]].
  - destruct e; simpl in H; try discriminate. injection H as <-. right. left.
    split; [reflexivity|]. apply ui_mount.
Qed.


(** The key of the promise an event settles. *)
Definition settled_key (e : Event) : option nat :=
  match e with
  | SettleFetch k _ | SettleOptions k _ => Some k
  | _ => None
  end.

(** The effects keep the session, the route and the mounted flag; only
    [auth_effect] moves the route. *)
Lemma commit_route w s' :
  session (commit w s') = session w /\ route (commit w s') = route w /\
  mounted (commit w s') = mounted w /\ pending (commit w s') !! issued w = pending w !! issued w \/
  session (commit w s') = session w /\ route (commit w s') = route w /\
  mounted (commit w s') = mounted w /\ pending (commit w s') = <[issued w := PFetch (fetch_params s')]> (pending w).
Proof. rewrite commit_eq. case_decide; [left | right]; auto. Qed.

Lemma auth_effect_route w :
  session (auth_effect w) = session w /\ mounted (auth_effect w) = mounted w /\
  pending (auth_effect w) = pending w /\
  (session w = SessionAbsent -> route (auth_effect w) = "/auth"%string) /\
  (session w <> SessionAbsent -> route (auth_effect w) = route w).
Proof. unfold auth_effect. case_decide; simpl; repeat split; congruence. Qed.

(** The shape of a step on the whole world: the first render, a session
    change, a handler with its re-render, or the settlement of a
    pending promise, which removes it.  Every step leaves the page
    mounted. *)
Lemma step_frame w e w' :
  step w e = Some w' ->
  mounted w' = true /\
  ((e = Mount /\ mounted w = false /\ w' = mount w) \/
   (exists s, mounted w = true /\ e = SessionChange s /\
      w' = auth_effect (mkWorld (ui w) (pending w) (issued w) s (route w) true)) \/
   (exists s', settled_key e = None /\ mounted w = true /\ w' = commit w s') \/
   (exists k p s', mounted w = true /\ settled_key e = Some k /\ pending w !! k = Some p /\
      w' = mkWorld s' (delete k (pending w)) (issued w) (session w) (route w) true)).
Proof.
  unfold step. intros H. destruct (mounted w) eqn:Hm.
  - destruct e as [| s0 | v | v | v | key | | | k o | k o]; cbv beta iota delta [negb] in H;
      try discriminate.
    1: { injection H as <-. split; [unfold auth_effect; case_decide; simpl; auto|].
         right; left. exists s0. split; [reflexivity|]. split; reflexivity. }
    7: { destruct (pending w !! k) as [[]|] eqn:Ek; try discriminate. settled_render H. injection H as <-.
         split; [reflexivity|]. do 3 right. eexists _, _, _. split; [reflexivity|]. split; [reflexivity|]. split; [exact Ek | reflexivity]. }
    7: { destruct (pending w !! k) as [[]|] eqn:Ek, o; try discriminate; settled_render H; injection H as <-;
           (split; [reflexivity|]); do 3 right; eexists _, _, _;
           (split; [reflexivity|]); (split; [reflexivity|]); (split; [exact Ek | reflexivity]). }
    all: match type of H with context [handle ?s ?e] => destruct (handle s e) as [s'|] end.
    all: try discriminate.
    all: injection H as <-; split; [now destruct (commit_route w s') as [(_ & _ & -> & _) | (_ & _ & -> & _)]|].
    all: do 2 right; left; exists s'; repeat split.
  - destruct e; simpl in H; try discriminate. injection H as <-.
    split; [rewrite mount_eq; unfold fetch_effect, directory_effect, auth_effect; simpl; now case_decide|].
    left. auto.
Qed.


Ltac handle_cases H :=
  repeat match type of H with
  | Some _ = Some _ => injection H as <-
  | None = Some _ => discriminate H
  | option_map _ ?o = _ => destruct o; simpl in H
  | (let '(_, _) := ?p in _) = _ => destruct p
  end.

(** The handlers touch neither the listing nor the loading flag. *)
Lemma handle_keeps s e s' :
  handle s e = Some s' ->
  loading s' = loading s /\ products s' = products s /\ total s' = total s.
Proof. destruct e; simpl; intros H; handle_cases H; repeat case_match; auto. Qed.

Lemma handle_keeps_options s e s' :
  handle s e = Some s' ->
  manufacturerOptions s' = manufacturerOptions s /\ categoryOptions s' = categoryOptions s.
Proof. destruct e; simpl; intros H; handle_cases H; repeat case_match; auto. Qed.

Lemma handle_page s e s' : handle s e = Some s' -> 1 <= page s -> 1 <= page s'.
Proof.
  destruct e; simpl; intros H Hp; handle_cases H; simpl; try lia;
    repeat case_match; simpl; lia.
Qed.

(** The listing pair a fetch settlement commits: the normalized rows and
    [count || 0] of a fulfilled response whose rows map without error,
    else the pair already shown. *)
Definition commit_of (acc : list Product.t * Z) (outcome : res response) : list Product.t * Z :=
  match outcome with
  | Ok r => match normalize (r_data r) with
            | Ok ps => (ps, count_or_zero (r_count r))
            | Err _ => acc
            end
  | Err _ => acc
  end.

Definition listing_view (s : State) : list Product.t * Z := (products s, total s).

Lemma settle_fetch_view s o : listing_view (settle_fetch s o) = commit_of (listing_view s) o.
Proof.
  unfold settle_fetch, commit_of, on_fetched. destruct o as [r|]; [|reflexivity].
  simpl. destruct (normalize (r_data r)); reflexivity.
Qed.

Lemma settle_fetch_loading s o : loading (settle_fetch s o) = false.
Proof. reflexivity. Qed.

Lemma settle_fetch_page s o : page (settle_fetch s o) = page s.
Proof.
  unfold settle_fetch, on_fetched. destruct o as [r|]; [|reflexivity].
  simpl. destruct (normalize (r_data r)); reflexivity.
Qed.

Lemma step_view w e w' :
  step w e = Some w' ->
  listing_view (ui w') =
    match e with SettleFetch _ o => commit_of (listing_view (ui w)) o | _ => listing_view (ui w) end.
Proof.
  intros H. pose proof (step_ui _ _ _ H) as U.
  destruct e as [| s0 | v | v | v | key | | | k o | k o].
  all: try (destruct U as [-> | [[_ ->] | [(s' & Hh & [-> | ->]) | [(k' & o' & Hk & _) | (k'' & d & _ & [-> | ->])]]]];
            [reflexivity | reflexivity
            | destruct (handle_keeps _ _ _ Hh) as (_ & Hp & Ht); unfold listing_view; simpl; now rewrite Hp, Ht
            | destruct (handle_keeps _ _ _ Hh) as (_ & Hp & Ht); unfold listing_view; simpl; now rewrite Hp, Ht
            | discriminate Hk | reflexivity | reflexivity]; fail).
  unfold step in H. destruct (mounted w); simpl in H; [|discriminate].
  destruct (pending w !! k) as [[]|]; try discriminate. settled_render H. injection H as <-.
  apply settle_fetch_view.
Qed.


Definition fetch_in_flight (w : World) : Prop := exists k p, pending w !! k = Some (PFetch p).

Lemma fetch_effect_pending w : pending (fetch_effect w) !! issued w = Some (PFetch (fetch_params (ui w))).
Proof. unfold fetch_effect, issue. simpl. apply lookup_insert_eq. Qed.

Lemma mount_in_flight w : fetch_in_flight (mount w).
Proof. rewrite mount_eq. eexists _, _. apply fetch_effect_pending. Qed.

Lemma step_loading w e w' :
  (loading (ui w) = true -> fetch_in_flight w) -> step w e = Some w' ->
  loading (ui w') = true -> fetch_in_flight w'.
Proof.
  intros IH H. unfold step in H. destruct (mounted w) eqn:Hm.
  - destruct e as [| s0 | v | v | v | key | | | k o | k o]; cbv beta iota delta [negb] in H;
      try discriminate.
    all: try (destruct (handle (ui w) _) eqn:E; [|discriminate]; injection H as <-;
              rewrite commit_eq; destruct (decide _);
              [simpl; rewrite (proj1 (handle_keeps _ _ _ E)); exact IH
              | intros _; eexists _, _; apply fetch_effect_pending]; fail).
    + injection H as <-. unfold auth_effect. destruct (decide _); exact IH.
    + destruct (pending w !! k) as [[]|]; try discriminate. settled_render H. injection H as <-. discriminate.
    + destruct (pending w !! k) as [[]|] eqn:Ek, o; try discriminate; settled_render H; injection H as <-;
        cbn [ui pending loading setManufacturerOptions setCategoryOptions];
        intros Hl; destruct (IH Hl) as (k' & p & Hk'); exists k', p; cbn [pending];
        (rewrite lookup_delete_ne; [exact Hk' | intros ->; congruence]).
  - destruct e; simpl in H; try discriminate. injection H as <-. intros _. apply mount_in_flight.
Qed.

(** The listing pair after a trace: the last settlement that committed
    rows, in the order the settlements happened. *)
Fixpoint committed (acc : list Product.t * Z) (es : list Event) : list Product.t * Z :=
  match es with
  | [] => acc
  | SettleFetch _ o :: es' => committed (commit_of acc o) es'
  | _ :: es' => committed acc es'
  end.

Lemma run_view w es w' :
  run w es = Some w' -> listing_view (ui w') = committed (listing_view (ui w)) es.
Proof.
  revert w. induction es as [|e es IH]; simpl; intros w H.
  - now injection H as <-.
  - destruct (step w e) as [w1|] eqn:E; [|discriminate].
    rewrite (IH _ H), (step_view _ _ _ E). destruct e; reflexivity.
Qed.

Lemma count_or_zero_num n : count_or_zero (JNum n) = n.
Proof. unfold count_or_zero, js_or. simpl. destruct (Z.eqb_spec n 0); simpl; congruence. Qed.

Lemma listing_page_incl d p rows lo hi :
  incl (window lo hi (sort_by (row_le d products_select (order_keys p)) (listing d p None rows)))
       (joined d products_select rows).
Proof.
  intros x Hx. apply window_incl in Hx.
  apply (Permutation_in _ (sort_by_perm _ _)) in Hx.
  unfold listing in Hx. now apply filter_In in Hx as [Hx _].
Qed.

(** ** Properties *)

(** C18: On every reachable state the page is at least 1: the previous
    button is disabled on page 1 and nothing else decreases the page. *)
Theorem page_at_least_one ss es w :
  run (init_world ss) es = Some w -> 1 <= page (ui w).
Proof.
  intros H. refine (run_invariant (fun w => 1 <= page (ui w)) _ (init_world ss) es w _ H);
    [|simpl; lia].
  intros w0 e w1 Hp Hs.
  destruct (step_ui _ _ _ Hs) as
    [-> | [[_ ->] | [(s' & Hh & [-> | ->]) | [(k & o & _ & ->) | (k'' & d & _ & [-> | ->])]]]];
    try rewrite settle_fetch_page; simpl; eauto using handle_page.
Qed.

Lemma page_at_least_one_witness :
  exists w, run (init_world SessionPresent) [Mount; ClickNext; ClickPrev; ClickPrev] = Some w /\
            1 <= page (ui w).
Proof.
  eexists. split; [reflexivity|].
  apply (page_at_least_one SessionPresent [Mount; ClickNext; ClickPrev; ClickPrev]). reflexivity.
Defined.

(** C19: Whenever the loading indicator is on, a product fetch is in
    flight: the indicator cannot stay on with nothing left to settle. *)
Theorem loading_has_fetch ss es w :
  run (init_world ss) es = Some w -> loading (ui w) = true -> fetch_in_flight w.
Proof.
  intros H.
  refine (run_invariant (fun w => loading (ui w) = true -> fetch_in_flight w) _
            (init_world ss) es w _ H); [|discriminate].
  intros w0 e w1 IH Hs. eapply step_loading; eauto.
Qed.

Lemma loading_has_fetch_witness :
  exists w, run (init_world SessionPresent) [Mount] = Some w /\ loading (ui w) = true /\
            fetch_in_flight w.
Proof.
  eexists. split; [reflexivity|]. split; [reflexivity|].
  apply (loading_has_fetch SessionPresent [Mount]); reflexivity.
Defined.

(** C20: The products and the total always come from the same response:
    after any trace they are the rows and [count || 0] of the last fetch
    settlement that committed (in settlement order), or [[]] and [0]
    when none did.  No step changes one without the other. *)
Theorem listing_committed ss es w :
  run (init_world ss) es = Some w -> listing_view (ui w) = committed ([], 0) es.
Proof. intros H. exact (run_view _ _ _ H). Qed.

Lemma listing_committed_witness :
  exists w, run (init_world SessionPresent) [Mount; SettleFetch 2 (Ok (mkResponse (JArr []) (JNum 4)))] = Some w /\
            listing_view (ui w) = committed ([], 0) [Mount; SettleFetch 2 (Ok (mkResponse (JArr []) (JNum 4)))].
Proof.
  eexists. split; [reflexivity|].
  apply (listing_committed SessionPresent). reflexivity.
Defined.


(** C21: A rejected fetch leaves the products and the total as they
    were and turns the loading indicator off (spec section 4.3 keeps the
    old rows; its design note says the original code clears them, which
    it does not). *)
Theorem settle_failure_retains w k e w' :
  step w (SettleFetch k (Err e)) = Some w' ->
  listing_view (ui w') = listing_view (ui w) /\ loading (ui w') = false.
Proof.
  intros H. split; [exact (step_view _ _ _ H)|].
  unfold step in H. destruct (mounted w); simpl in H; [|discriminate].
  destruct (pending w !! k) as [[]|]; try discriminate. settled_render H. now injection H as <-.
Qed.

Lemma settle_failure_retains_witness :
  exists w w', run (init_world SessionPresent) [Mount] = Some w /\
    step w (SettleFetch 2 (Err (BackendError "500" "down"))) = Some w' /\
    listing_view (ui w') = listing_view (ui w) /\ loading (ui w') = false.
Proof.
  do 2 eexists. split; [reflexivity|]. split; [reflexivity|].
  apply (settle_failure_retains _ 2 (BackendError "500" "down")). reflexivity.
Defined.

(** C22: A click on a column header always starts a new fetch, with the
    toggled sort and the page left as it was. *)
Theorem click_header_fetches w key :
  mounted w = true ->
  exists w', step w (ClickHeader key) = Some w' /\
    (sortBy (ui w'), sortOrder (ui w')) = handleSort (sortBy (ui w)) (sortOrder (ui w)) key /\
    page (ui w') = page (ui w) /\ loading (ui w') = true /\
    pending w' !! issued w = Some (PFetch (fetch_params (ui w'))).
Proof.
  intros Hm. unfold step. rewrite Hm. cbn [negb handle].
  pose proof (handleSort_changes (sortBy (ui w)) (sortOrder (ui w)) key) as Hc.
  destruct (handleSort (sortBy (ui w)) (sortOrder (ui w)) key) as [k o] eqn:E.
  rewrite commit_eq. case_decide as Heq.
  - exfalso. apply Hc. unfold fetch_deps in Heq. simpl in Heq. congruence.
  - eexists. split; [reflexivity|]. repeat split; [reflexivity..|].
    exact (fetch_effect_pending (with_ui w (setSortOrder (setSortBy (ui w) k) o))).
Qed.

Lemma click_header_fetches_witness :
  exists w, run (init_world SessionPresent) [Mount] = Some w /\
  exists w', step w (ClickHeader "reference") = Some w' /\
    (sortBy (ui w'), sortOrder (ui w')) = handleSort (sortBy (ui w)) (sortOrder (ui w)) "reference" /\
    page (ui w') = page (ui w) /\ loading (ui w') = true /\
    pending w' !! issued w = Some (PFetch (fetch_params (ui w'))).
Proof.
  eexists. split; [reflexivity|].
  apply (click_header_fetches _ "reference"). reflexivity.
Defined.

Lemma with_ui_self w : with_ui w (ui w) = w.
Proof. now destruct w. Qed.

Lemma fetch_deps_page s p : p <> page s -> fetch_deps s <> fetch_deps (setPage s p).
Proof. intros Hp Heq. unfold fetch_deps in Heq. simpl in Heq. congruence. Qed.

(** C23: The pagination buttons: "next" moves to the next page and
    fetches it when the page is below [totalPages], and does nothing
    otherwise; "previous" moves back and fetches when the page is above
    1, and does nothing otherwise. *)
Theorem click_pagination w :
  mounted w = true ->
  step w ClickNext =
    Some (if page (ui w) <? totalPages (total (ui w)) (pageSize (ui w))
          then fetch_effect (with_ui w (setPage (ui w) (page (ui w) + 1))) else w) /\
  step w ClickPrev =
    Some (if 1 <? page (ui w)
          then fetch_effect (with_ui w (setPage (ui w) (page (ui w) - 1))) else w).
Proof.
  intros Hm. unfold step. rewrite Hm. cbn [negb handle footer_view next_enabled prev_enabled].
  split; f_equal; rewrite commit_eq.
  - destruct (Z.ltb_spec (page (ui w)) (totalPages (total (ui w)) (pageSize (ui w)))).
    + replace (negb _) with true by (symmetry; apply negb_true_iff, Z.leb_gt; lia).
      rewrite decide_False; [reflexivity|]. apply fetch_deps_page. lia.
    + replace (negb _) with false by (symmetry; apply negb_false_iff, Z.leb_le; lia).
      rewrite decide_True; [apply with_ui_self | reflexivity].
  - destruct (Z.ltb_spec 1 (page (ui w))).
    + replace (negb _) with true by (symmetry; apply negb_true_iff, Z.leb_gt; lia).
      rewrite decide_False; [reflexivity|]. apply fetch_deps_page. lia.
    + replace (negb _) with false by (symmetry; apply negb_false_iff, Z.leb_le; lia).
      rewrite decide_True; [apply with_ui_self | reflexivity].
Qed.

Lemma click_pagination_witness :
  exists w, run (init_world SessionPresent) [Mount] = Some w /\
    step w ClickNext =
      Some (if page (ui w) <? totalPages (total (ui w)) (pageSize (ui w))
            then fetch_effect (with_ui w (setPage (ui w) (page (ui w) + 1))) else w) /\
    step w ClickPrev =
      Some (if 1 <? page (ui w)
            then fetch_effect (with_ui w (setPage (ui w) (page (ui w) - 1))) else w).
Proof. eexists. split; [reflexivity|]. apply click_pagination. reflexivity. Defined.


(** C24: Typing in the reference search box changes the search and
    leaves the page where it was: the code never resets the page to 1
    when a filter changes (spec section 4.3 requires it). *)
Theorem type_reference_keeps_page w v w' :
  step w (TypeReference v) = Some w' ->
  page (ui w') = page (ui w) /\ referenceSearch (ui w') = v.
Proof.
  unfold step. intros H. destruct (mounted w); simpl in H; [|discriminate].
  injection H as <-. rewrite commit_eq. case_decide; split; reflexivity.
Qed.

Lemma type_reference_keeps_page_witness :
  exists w, run (init_world SessionPresent) [Mount; ClickNext] = Some w /\
  exists w', step w (TypeReference "AB") = Some w' /\
    page (ui w') = page (ui w) /\ referenceSearch (ui w') = "AB".
Proof.
  eexists. split; [reflexivity|]. eexists. split; [reflexivity|].
  apply (type_reference_keeps_page _ "AB"). reflexivity.
Defined.

(** The requests of a session with a slow first answer: the page
    mounts (fetch 2), the user types "AB" (fetch 3), and the answers
    arrive newest first. *)
Definition stale_trace (older newer : res response) : list Event :=
  [Mount; TypeReference "AB"; SettleFetch 3 newer; SettleFetch 2 older].

(** C25: Completions are not ordered by issue: when the answer to an
    earlier request arrives after the answer to a later one, it
    overwrites it.  On the sample database the search box shows "AB",
    whose answer counts 2 rows, but the table shows the 3 rows of the
    unfiltered first request (spec section 5 requires last-issued-wins). *)
Theorem stale_response_wins :
  let older := @fetchProducts (memory_source sample_db) (fetch_params initial_state) in
  let newer := @fetchProducts (memory_source sample_db)
                 (fetch_params (setReferenceSearch initial_state "AB")) in
  exists w, run (init_world SessionPresent) (stale_trace older newer) = Some w /\
  exists r, newer = Ok r /\ r_count r = JNum 2 /\
    referenceSearch (ui w) = "AB" /\ total (ui w) = 3 /\ List.length (products (ui w)) = 3%nat.
Proof.
  intros older newer. apply exists_of_some. vm_compute.
  eexists. repeat split; reflexivity.
Qed.

(** C26: The loading indicator goes off while a request is still in
    flight: the first answer to settle runs [setLoading(false)] whatever
    was issued after it. *)
Theorem loading_off_in_flight :
  exists w, run (init_world SessionPresent)
              [Mount; TypeReference "AB"; SettleFetch 2 (Ok (mkResponse (JArr []) (JNum 0)))] = Some w /\
    loading (ui w) = false /\ fetch_in_flight w.
Proof.
  apply exists_of_some. vm_compute. split; [reflexivity|].
  exists 3%nat. eexists. reflexivity.
Qed.

(** C27: The user can be left on a page past the last one: on page 2 of
    15 rows, a search that matches nothing keeps page 2 while
    [totalPages] is 1, and the table shows "Page 2 of 1". *)
Theorem page_out_of_range :
  exists w, run (init_world SessionPresent)
              [Mount; SettleFetch 2 (Ok (mkResponse (JArr []) (JNum 15))); ClickNext;
               SettleFetch 3 (Ok (mkResponse (JArr []) (JNum 15))); TypeReference "zz";
               SettleFetch 4 (Ok (mkResponse (JArr []) (JNum 0)))] = Some w /\
    page (ui w) = 2 /\ totalPages (total (ui w)) (pageSize (ui w)) = 1.
Proof. apply exists_of_some. vm_compute. split; reflexivity. Qed.

(** C28: The first render fetches products whatever the session: while
    the session is still being restored, and even when there is none (it
    then also redirects to "/auth"); spec section 6 says a pending
    session must not fetch. *)
Theorem mount_fetches_any_session ss :
  exists w, run (init_world ss) [Mount] = Some w /\ fetch_in_flight w /\
    (route w = "/auth" <-> ss = SessionAbsent).
Proof.
  eexists. split; [reflexivity|]. split; [apply mount_in_flight|].
  destruct ss; simpl; split; intros H; try reflexivity; discriminate.
Qed.


(** C10: End to end, on a backend that answers as the spec's data
    interface says: when the answer to a pending listing request settles,
    the table shows the products of exactly the rows that satisfy the
    spec's filter contract for that request's parameters, sorted and cut
    to its page, the total is their number, and the loading indicator
    is off. *)
Theorem settle_displays_listing d rows w k p :
  table_rows d "article_manufacturer" = Some rows -> spec_params p -> name_active p = false ->
  mounted w = true -> pending w !! k = Some (PFetch p) ->
  exists w', step w (SettleFetch k (@fetchProducts (memory_source d) p)) = Some w' /\
    products (ui w') =
      map (fun q => expected_product d (fst q))
        (window ((page_d p - 1) * pageSize_d p) ((page_d p - 1) * pageSize_d p + pageSize_d p - 1)
           (sort_by (row_le d products_select (order_keys p)) (listing d p None rows))) /\
    total (ui w') = Z.of_nat (List.length (listing d p None rows)) /\
    loading (ui w') = false.
Proof.
  intros Ht Hp Hn Hm Hk.
  rewrite fetch_no_name by exact Hn.
  change (@ds_run (memory_source d)) with (run_query d).
  rewrite run_query_of with (rows := rows), matching_query_of by assumption.
  rewrite res_bind_Ok. unfold step. rewrite Hm. cbv beta iota delta [negb]. rewrite Hk.
  rewrite render_effects_same by (cbn [ui]; symmetry; apply fetch_deps_settle_fetch).
  eexists. split; [reflexivity|]. cbn [ui].
  unfold settle_fetch, on_fetched. cbn [r_data r_count].
  rewrite (normalize_joined_rows d rows) by apply listing_page_incl.
  rewrite res_bind_Ok, count_or_zero_num. repeat split.
Qed.

Lemma settle_displays_listing_witness :
  exists w, run (init_world SessionPresent) [Mount] = Some w /\
  exists w', step w (SettleFetch 2 (@fetchProducts (memory_source sample_db) (fetch_params initial_state))) = Some w' /\
    products (ui w') =
      map (fun q => expected_product sample_db (fst q))
        (window ((page_d (fetch_params initial_state) - 1) * pageSize_d (fetch_params initial_state))
                ((page_d (fetch_params initial_state) - 1) * pageSize_d (fetch_params initial_state)
                 + pageSize_d (fetch_params initial_state) - 1)
           (sort_by (row_le sample_db products_select (order_keys (fetch_params initial_state)))
                    (listing sample_db (fetch_params initial_state) None sample_rows))) /\
    total (ui w') = Z.of_nat (List.length (listing sample_db (fetch_params initial_state) None sample_rows)) /\
    loading (ui w') = false.
Proof.
  eexists. split; [reflexivity|].
  apply (settle_displays_listing sample_db sample_rows _ 2 (fetch_params initial_state)).
  - reflexivity.
  - split; [intros x Hx; injection Hx as <-; reflexivity | split; discriminate].
  - reflexivity.
  - reflexivity.
  - reflexivity.
Defined.

End Controller.
