(* ===== verification/Auth.v ===== *)
(** * The login gate: [src/src/lib/handleAuth.ts] and [src/src/app/auth/page.tsx]

    [handleAuth] sends the credentials to Supabase's
    [signInWithPassword] and rethrows the [error] field of the answer.
    The class [AuthService] is the interface it is proved against.

    [AuthPage] keeps five [useState] cells ([email], [password],
    [loading], [error], [isSignUp]) and submits the form with
    [handleAuthForm].  That handler is [async]: the state changes
    before the [await], then the awaited sign-in settles later, in a
    separate event.  So the page is modelled as a [World] that holds
    the state, the sign-in request in flight and the router's
    history.  [step] is the executable transition function over user
    and promise events, and [reachable] is its reflexive-transitive
    closure from the first render, as an inductive relation.

    The theorems show four things:
    - The Sign Up mode sends the same sign-in request as the Sign In
      mode: no account is ever created (C29).
    - The loading flag is on exactly while a sign-in is in flight (C30).
    - A settled sign-in either navigates to the dashboard or shows the
      error's message, and answers exactly as [handleAuth] does (C31).
    - The page navigates to the dashboard exactly once per successful
      sign-in, and never otherwise (C32). *)

From Stdlib Require Import ZArith List String Bool Lia.
From S2P Require Import Prelude JsValue.
Import ListNotations.
Open Scope supa_scope.

Module AuthPage.

(** The answer of [supabase.auth.signInWithPassword]: its [data] and
    [error] fields. *)
Record auth_response := mkAuthResponse {
  ar_data : js;
  ar_error : option error
}.

(** The Supabase auth client, as [handleAuth] uses it. *)
Class AuthService := {
  signInWithPassword : string -> string -> auth_response
}.

(** Lines 8-9 of handleAuth.ts: [if (error) throw error; return data].
    The Supabase error object is never falsy, so the test is [Some]. *)
Definition after_sign_in (r : auth_response) : res js :=
  match ar_error r with
  | Some e => Err e
  | None => Ok (ar_data r)
  end.

(** [handleAuth], lines 5-10 (the [console.log] is not modelled). *)
Definition handleAuth `{AuthService} (email password : string) : res js :=
  after_sign_in (signInWithPassword email password).

(** [error.message]. *)
Definition message (e : error) : string :=
  match e with
  | TypeError what => what
  | BackendError _ m => m
  end.

(** The [useState] cells, lines 10-14. *)
Record State := mkState {
  email : string;
  password : string;
  loading : bool;
  err : option string;
  isSignUp : bool
}.

Definition initial_state : State := mkState "" "" false None false.

Definition setEmail (s : State) (v : string) : State :=
  mkState v (password s) (loading s) (err s) (isSignUp s).
Definition setPassword (s : State) (v : string) : State :=
  mkState (email s) v (loading s) (err s) (isSignUp s).
Definition setLoading (s : State) (v : bool) : State :=
  mkState (email s) (password s) v (err s) (isSignUp s).
Definition setError (s : State) (v : option string) : State :=
  mkState (email s) (password s) (loading s) v (isSignUp s).
Definition setIsSignUp (s : State) (v : bool) : State :=
  mkState (email s) (password s) (loading s) (err s) v.

(** The page, the [handleAuth(email, password)] call awaited by the
    handler (with the credentials it was called with), and the paths
    [router.push] was called with, most recent first. *)
Record World := mkWorld {
  ui : State;
  in_flight : option (string * string);
  pushed : list string
}.

Definition init_world : World := mkWorld initial_state None [].

Inductive Event :=
| TypeEmail (v : string)
| TypePassword (v : string)
| ToggleMode
| Submit
| SettleSignIn (r : auth_response).

(** The browser submits the form only when the submit button is enabled
    ([disabled={loading}], line 55) and both [required] fields are
    filled (lines 45 and 52).  The format check of [type="email"] is not
    modelled: it blocks more submissions, never fewer. *)
Definition can_submit (s : State) : bool :=
  negb (loading s) && negb (String.eqb (email s) "") && negb (String.eqb (password s) "").

(** [handleAuthForm] up to its [await], lines 18-22. *)
Definition submit (w : World) : World :=
  let s := setError (setLoading (ui w) true) None in
  mkWorld s (Some (email s, password s)) (pushed w).

(** [handleAuthForm] after its [await], lines 22-28: [router.push] on
    success, [setError(error.message)] on failure, then [setLoading(false)]. *)
Definition settle (w : World) (outcome : res js) : World :=
  match outcome with
  | Ok _ => mkWorld (setLoading (ui w) false) None ("/dashboard/products"%string :: pushed w)
  | Err e => mkWorld (setLoading (setError (ui w) (Some (message e))) false) None (pushed w)
  end.

Definition step (w : World) (e : Event) : option World :=
  match e with
  | TypeEmail v => Some (mkWorld (setEmail (ui w) v) (in_flight w) (pushed w))
  | TypePassword v => Some (mkWorld (setPassword (ui w) v) (in_flight w) (pushed w))
  | ToggleMode => Some (mkWorld (setIsSignUp (ui w) (negb (isSignUp (ui w)))) (in_flight w) (pushed w))
  | Submit => if can_submit (ui w) then Some (submit w) else None
  | SettleSignIn r =>
      match in_flight w with
      | Some _ => Some (settle w (after_sign_in r))
      | None => None
      end
  end.

(** The states the page reaches from its first render. *)
Inductive reachable : World -> Prop :=
| reach_init : reachable init_world
| reach_step w e w' : reachable w -> step w e = Some w' -> reachable w'.

(** What the form shows, lines 37-66: the title, the error line, the
    label and enabled state of the submit button, and the toggle's
    text. *)
Record View := mkView {
  title : string;
  error_line : option string;
  submit_label : string;
  submit_enabled : bool;
  toggle_label : string
}.

Definition render (s : State) : View :=
  mkView (if isSignUp s then "Sign Up" else "Sign In")
         (match err s with Some m => if String.eqb m "" then None else Some m | None => None end)
         (if loading s then "Loading..." else if isSignUp s then "Sign Up" else "Sign In")
         (negb (loading s))
         (if isSignUp s then "Already have an account? Sign In" else "Don't have an account? Sign Up").

(** [run] folds [step] over a trace of events. *)
Fixpoint run (w : World) (es : list Event) : option World :=
  match es with
  | [] => Some w
  | e :: es' => match step w e with Some w' => run w' es' | None => None end
  end.

(** The number of settled sign-ins of a trace whose answer had no
    error. *)
Fixpoint successes (es : list Event) : nat :=
  match es with
  | [] => 0
  | SettleSignIn r :: es' =>
      match after_sign_in r with Ok _ => S (successes es') | Err _ => successes es' end
  | _ :: es' => successes es'
  end.

(** The page with the mode toggle set to [b]. *)
Definition with_mode (w : World) (b : bool) : World :=
  mkWorld (setIsSignUp (ui w) b) (in_flight w) (pushed w).

(** ** Lemmas *)

Lemma run_reachable w es w' : reachable w -> run w es = Some w' -> reachable w'.
Proof.
  revert w. induction es as [|e es IH]; simpl; intros w Hw H; [now injection H as <-|].
  destruct (step w e) as [w1|] eqn:E; [|discriminate]. eauto using reachable.
Qed.

(** [router.push] is called once per successful settlement. *)
Lemma run_pushed w es w' :
  run w es = Some w' -> pushed w' = repeat "/dashboard/products"%string (successes es) ++ pushed w.
Proof.
  revert w. induction es as [|e es IH]; simpl; intros w H; [now injection H as <-|].
  destruct (step w e) as [w1|] eqn:Hs; [|discriminate]. rewrite (IH _ H).
  destruct e; simpl in Hs; try (injection Hs as <-; reflexivity).
  - destruct (can_submit (ui w)); [|discriminate]. now injection Hs as <-.
  - destruct (in_flight w); [|discriminate]. injection Hs as <-.
    destruct (after_sign_in r); simpl; [|reflexivity].
    generalize (successes es). induction n; simpl; congruence.
Qed.

Lemma can_submit_mode w b : can_submit (ui (with_mode w b)) = can_submit (ui w).
Proof. reflexivity. Qed.

(** Every step either leaves the loading flag and the request in flight
    alone, or is a submission, or is a settlement. *)
Lemma step_cases w e w' :
  step w e = Some w' ->
  (loading (ui w') = loading (ui w) /\ in_flight w' = in_flight w) \/
  (can_submit (ui w) = true /\ w' = submit w) \/
  (exists c r, in_flight w = Some c /\ w' = settle w (after_sign_in r)).
Proof.
  destruct e; simpl; intros H.
  1-3: injection H as <-; left; split; reflexivity.
  - destruct (can_submit (ui w)) eqn:E; [|discriminate]. injection H as <-. right; left; auto.
  - destruct (in_flight w) as [c|] eqn:E; [|discriminate]. injection H as <-. right; right; eauto.
Qed.

Lemma settle_clears w o : loading (ui (settle w o)) = false /\ in_flight (settle w o) = None.
Proof. destruct o; split; reflexivity. Qed.

Lemma can_submit_not_loading s : can_submit s = true -> loading s = false.
Proof. unfold can_submit. destruct (loading s); [discriminate | reflexivity]. Qed.

(** ** Properties *)

Local Open Scope string_scope.

(** C29: The Sign Up mode only changes labels: a submission sends the
    same sign-in request, [signInWithPassword(email, password)], and
    changes the page the same way whichever mode the toggle shows.  No
    account is ever created from this page. *)
Theorem submit_ignores_mode w b :
  step (with_mode w b) Submit = option_map (fun w' => with_mode w' b) (step w Submit) /\
  (forall w', step w Submit = Some w' -> in_flight w' = Some (email (ui w), password (ui w))).
Proof.
  split.
  - unfold step. rewrite can_submit_mode. now destruct (can_submit (ui w)).
  - unfold step. destruct (can_submit (ui w)); [|discriminate]. now intros w' [= <-].
Qed.

Lemma submit_ignores_mode_witness :
  let w := mkWorld (mkState "a@b.c" "pw" false None false) None [] in
  step (with_mode w true) Submit = option_map (fun w' => with_mode w' true) (step w Submit) /\
  (forall w', step w Submit = Some w' -> in_flight w' = Some (email (ui w), password (ui w))).
Proof. exact (submit_ignores_mode (mkWorld (mkState "a@b.c" "pw" false None false) None []) true). Defined.

(** C30: On every reachable page the loading flag is on exactly when a
    sign-in is in flight, and no second submission can start while one
    is: at most one sign-in is ever pending. *)
Theorem loading_iff_in_flight w :
  reachable w ->
  (loading (ui w) = true <-> in_flight w <> None) /\
  (in_flight w <> None -> step w Submit = None).
Proof.
  intros R. assert (Hinv : loading (ui w) = true <-> in_flight w <> None).
  { induction R as [|w e w' R IH Hs]; [split; [discriminate | now intros []]|].
    destruct (step_cases _ _ _ Hs) as [[-> ->] | [[_ ->] | (c & r & _ & ->)]]; [exact IH | |].
    - split; [discriminate | reflexivity].
    - destruct (settle_clears w (after_sign_in r)) as [-> ->]. split; [discriminate | now intros []]. }
  split; [exact Hinv|]. intros Hf. simpl.
  destruct (can_submit (ui w)) eqn:E; [|reflexivity].
  apply can_submit_not_loading in E. apply Hinv in Hf. congruence.
Qed.

Lemma loading_iff_in_flight_witness :
  exists w, run init_world [TypeEmail "a@b.c"; TypePassword "pw"; Submit] = Some w /\
    (loading (ui w) = true <-> in_flight w <> None) /\ (in_flight w <> None -> step w Submit = None).
Proof.
  eexists. split; [reflexivity|].
  apply loading_iff_in_flight. apply (run_reachable init_world [TypeEmail "a@b.c"; TypePassword "pw"; Submit]);
    [constructor | reflexivity].
Defined.

(** A demo auth backend: one account. *)
#[local] Instance demo_service : AuthService := {
  signInWithPassword em pw :=
    if String.eqb em "a@b.c" && String.eqb pw "pw"
    then mkAuthResponse (JObj [("user", JStr "a@b.c")]) None
    else mkAuthResponse JNull (Some (BackendError "400" "Invalid login credentials"))
}.

(** C31: When the sign-in awaited for [(email, password)] settles with
    the auth service's answer, the page resumes with [handleAuth]'s
    outcome: on success it pushes [/dashboard/products] and keeps the
    error line, on failure it shows the error's message and stays; in
    both cases loading turns off and nothing is left in flight. *)
Theorem settle_sign_in `{AuthService} w em pw w' :
  in_flight w = Some (em, pw) ->
  step w (SettleSignIn (signInWithPassword em pw)) = Some w' ->
  loading (ui w') = false /\ in_flight w' = None /\
  match handleAuth em pw with
  | Ok _ => pushed w' = "/dashboard/products"%string :: pushed w /\ err (ui w') = err (ui w)
  | Err e => pushed w' = pushed w /\ err (ui w') = Some (message e)
  end.
Proof.
  intros Hf Hs. simpl in Hs. rewrite Hf in Hs. injection Hs as <-.
  destruct (settle_clears w (after_sign_in (signInWithPassword em pw))) as [-> ->].
  split; [reflexivity|]. split; [reflexivity|].
  unfold handleAuth. destruct (after_sign_in _); split; reflexivity.
Qed.

Lemma settle_sign_in_witness :
  let w := mkWorld (mkState "a@b.c" "bad" true None false) (Some ("a@b.c", "bad")) [] in
  exists w', step w (SettleSignIn (signInWithPassword "a@b.c" "bad")) = Some w' /\
    loading (ui w') = false /\ in_flight w' = None /\
    match handleAuth "a@b.c" "bad" with
    | Ok _ => pushed w' = "/dashboard/products"%string :: pushed w /\ err (ui w') = err (ui w)
    | Err e => pushed w' = pushed w /\ err (ui w') = Some (message e)
    end.
Proof.
  eexists. split; [reflexivity|]. apply settle_sign_in; reflexivity.
Defined.

(** C32: The page navigates only after a successful sign-in, and once
    for each: after any trace from the first render, the paths pushed
    are [/dashboard/products], as many times as the trace settled a
    sign-in whose answer had no error. *)
Theorem navigates_only_on_success es w :
  run init_world es = Some w -> pushed w = repeat "/dashboard/products" (successes es).
Proof. intros H. rewrite (run_pushed _ _ _ H). apply app_nil_r. Qed.

Lemma navigates_only_on_success_witness :
  exists w, run init_world [TypeEmail "a@b.c"; TypePassword "pw"; Submit;
                            SettleSignIn (mkAuthResponse JNull None)] = Some w /\
    pushed w = repeat "/dashboard/products" (successes [TypeEmail "a@b.c"; TypePassword "pw"; Submit;
                                                         SettleSignIn (mkAuthResponse JNull None)]).
Proof. eexists. split; [reflexivity|]. eapply navigates_only_on_success. reflexivity. Defined.

End AuthPage.
