(* ===== verification/TopNav.v ===== *)
(** * The navigation chrome: [TopNav] of [src/src/components/TopNav.tsx]

    [TopNav] reads the current path and keeps one [useState] cell,
    [mobileOpen].  It renders nothing on [/] and on every path that
    starts with [/auth] (line 21).  Otherwise it renders the four links
    of [navLinks] (lines 8-13), highlighting each whose [href] is a
    prefix of the path (lines 39 and 69), the Logout button, and the
    menu toggle.  [handleLogout] (lines 24-27) only navigates to [/auth]:
    the Supabase sign-out is a TODO.

    The component is modelled over the session and route of the
    [Dashboard] model, so that its theorems can say what the next
    dashboard visit does.  The theorems show these things:
    - The Dashboard link is highlighted on every page below it, together
      with the link of that page (C33).
    - Logging out keeps the session, so the next visit to the listing
      fetches products with no redirect (C34).
    - The bar is hidden on the page the dashboard redirects to without a
      session (C35). *)

From stdpp Require Import base gmap.
From Stdlib Require Import ZArith List String Ascii Bool Lia.
From S2P Require Import Prelude JsValue Dashboard.
Import ListNotations.
Open Scope supa_scope.

Module Nav.

Import Controller.

(** [s.startsWith(x)]. *)
Fixpoint startsWith (s x : string) {struct x} : bool :=
  match x, s with
  | EmptyString, _ => true
  | String a x', String b s' => Ascii.eqb a b && startsWith s' x'
  | String _ _, EmptyString => false
  end.

(** [navLinks], lines 8-13: [href] and [label]. *)
Definition navLinks : list (string * string) :=
  [("/dashboard", "Dashboard"); ("/dashboard/products", "Products");
   ("/dashboard/categories", "Categories"); ("/dashboard/manufacturers", "Manufacturers")]%string.

(** Line 21: the bar is hidden on [/auth...] and on [/]. *)
Definition hidden (pathname : string) : bool :=
  startsWith pathname "/auth" || String.eqb pathname "/".

(** The class test of lines 39 and 69. *)
Definition is_active (pathname href : string) : bool := startsWith pathname href.

(** The component's state and the part of the application it acts on:
    the route ([usePathname]/[router.push]) and the session, which
    [handleLogout] should end and does not. *)
Record World := mkWorld {
  route : string;
  session : Session;
  mobileOpen : bool
}.

Inductive Event :=
| ClickLink (href : string)         (* a desktop [Link], line 36 *)
| ClickMobileLink (href : string)   (* a mobile [Link], lines 66-70 *)
| ClickLogout                       (* either Logout button, lines 47 and 75 *)
| ToggleMenu.                       (* the menu button, line 54 *)

(** [handleLogout], lines 24-27. *)
Definition handleLogout (w : World) : World :=
  mkWorld "/auth" (session w) (mobileOpen w).

(** The handlers exist only while the bar is rendered; a link's [href]
    is one of [navLinks]. *)
Definition step (w : World) (e : Event) : option World :=
  if hidden (route w) then None else
  match e with
  | ClickLink href =>
      if existsb (fun l => String.eqb (fst l) href) navLinks
      then Some (mkWorld href (session w) (mobileOpen w)) else None
  | ClickMobileLink href =>
      if mobileOpen w && existsb (fun l => String.eqb (fst l) href) navLinks
      then Some (mkWorld href (session w) false) else None
  | ClickLogout => Some (handleLogout w)
  | ToggleMenu => Some (mkWorld (route w) (session w) (negb (mobileOpen w)))
  end.

(** What the bar renders, lines 29-82: [None] is [return null]; each
    link carries whether it is highlighted; the mobile list is shown
    when [mobileOpen]. *)
Record NavView := mkNavView {
  links : list (string * string * bool);
  mobile_links : option (list (string * string * bool))
}.

Definition render (pathname : string) (mobileOpen : bool) : option NavView :=
  if hidden pathname then None else
  let ls := map (fun '(href, label) => (href, label, is_active pathname href)) navLinks in
  Some (mkNavView ls (if mobileOpen then Some ls else None)).

(** The [href]s highlighted on a path. *)
Definition active_hrefs (pathname : string) : list string :=
  map fst (filter (fun l => is_active pathname (fst l)) navLinks).

(** ** Lemmas *)

(** Every mounted dashboard without a session sits on [/auth]. *)
Lemma absent_on_auth ss es d :
  Controller.run (init_world ss) es = Some d ->
  mounted d = true -> Controller.session d = SessionAbsent -> Controller.route d = "/auth"%string.
Proof.
  intros H.
  refine (run_invariant (fun w => mounted w = true -> Controller.session w = SessionAbsent ->
                                  Controller.route w = "/auth"%string) _ _ _ _ _ H); [|discriminate].
  intros w e w' IH Hs _ Ha.
  destruct (step_frame _ _ _ Hs) as
    (_ & [(_ & _ & ->) | [(s & _ & _ & ->) | [(s' & _ & Hm & ->) | (k & p & s' & Hm & _ & _ & ->)]]]).
  all: try (rewrite ?mount_eq in *; unfold fetch_effect, directory_effect, issue, with_ui in *; cbn [Controller.session Controller.route] in *;
            match goal with |- context [auth_effect ?x] =>
              destruct (auth_effect_route x) as (Es & _ & _ & Hr & _); apply Hr; rewrite <- Es; exact Ha end).
  - destruct (commit_route w s') as [(Es & Er & _) | (Es & Er & _)]; rewrite Er; rewrite Es in Ha; auto.
  - exact (IH Hm Ha).
Qed.

(** ** Properties *)

Local Open Scope string_scope.

(** C33: On every page below a section link (its [href] followed by
    anything), two links are highlighted: Dashboard and that section.
    The [startsWith] test makes "/dashboard" active on all of them. *)
Theorem dashboard_link_always_active href label rest :
  In (href, label) navLinks -> href <> "/dashboard" ->
  active_hrefs (href ++ rest) = ["/dashboard"; href].
Proof.
  intros Hin Hne. simpl in Hin.
  destruct Hin as [[= <- _] | [[= <- _] | [[= <- _] | [[= <- _] | []]]]];
    [congruence | ..]; reflexivity.
Qed.

Lemma dashboard_link_always_active_witness :
  active_hrefs ("/dashboard/products" ++ "?page=2") = ["/dashboard"; "/dashboard/products"].
Proof. apply (dashboard_link_always_active _ "Products"); [simpl; auto | discriminate]. Defined.

(** C34: Logout only navigates: the session survives, so with a session
    present the next visit to the listing mounts the dashboard, which
    stays on its route and sends a product request. *)
Theorem logout_keeps_session w w' :
  step w ClickLogout = Some w' ->
  route w' = "/auth" /\ session w' = session w /\
  (session w = SessionPresent ->
   Controller.route (mount (init_world (session w'))) = "/dashboard/products" /\
   fetch_in_flight (mount (init_world (session w')))).
Proof.
  unfold step. destruct (hidden (route w)); [discriminate|]. intros [= <-].
  split; [reflexivity|]. split; [reflexivity|].
  intros Hs. simpl. rewrite Hs. split; [reflexivity | apply mount_in_flight].
Qed.

Lemma logout_keeps_session_witness :
  exists w', step (mkWorld "/dashboard/products" SessionPresent false) ClickLogout = Some w' /\
    route w' = "/auth" /\ session w' = SessionPresent /\
    (SessionPresent = SessionPresent ->
     Controller.route (mount (init_world (session w'))) = "/dashboard/products" /\
     fetch_in_flight (mount (init_world (session w')))).
Proof.
  eexists. split; [reflexivity|].
  apply (logout_keeps_session (mkWorld "/dashboard/products" SessionPresent false)). reflexivity.
Defined.

(** C35: Whenever the mounted dashboard has no session, on any trace,
    it has redirected to [/auth], where the bar renders nothing. *)
Theorem nav_hidden_without_session ss es d open_ :
  Controller.run (init_world ss) es = Some d ->
  mounted d = true -> Controller.session d = SessionAbsent ->
  render (Controller.route d) open_ = None.
Proof. intros H Hm Ha. now rewrite (absent_on_auth ss es d H Hm Ha). Qed.

Lemma nav_hidden_without_session_witness :
  exists d, Controller.run (init_world SessionPresent) [Mount; SessionChange SessionAbsent] = Some d /\
    render (Controller.route d) true = None.
Proof.
  eexists. split; [reflexivity|].
  apply (nav_hidden_without_session SessionPresent [Mount; SessionChange SessionAbsent]);
    reflexivity.
Defined.

End Nav.
