(* ===== verification/Quiescence.v ===== *)
(** * Draining the promise queue of the listing controller

    The [Dashboard] model keeps the requests of [page.tsx] that have not
    settled in a finite map ([pending]).  This file proves two
    properties of that queue.

    Termination: settlements alone cannot go on forever.  Each one
    removes its request from the map, and its re-render starts no new
    request, because what a settlement updates (rows, total, loading,
    option lists) is not among the fetch effect's dependencies (line 76
    of page.tsx).  So "[w'] is [w] after one settlement" is a
    well-founded relation, measured by the size of the map (C37).  With
    [loading] among the dependencies, every settled fetch would re-run
    the effect and the relation would not be well-founded.

    Liveness: from every reachable state, settling the pending requests
    one by one (with any outcome) empties the queue and leaves the
    loading indicator off.  The page never stays stuck on "Loading
    products..." once the backend has answered every request (C38). *)

From stdpp Require Import base gmap.
From Stdlib Require Import ZArith List String Bool Lia Wellfounded.
From S2P Require Import Prelude JsValue Query Products Dashboard.
Import ListNotations.
Open Scope supa_scope.
Local Open Scope nat_scope.

Module Quiescence.

Import Controller.

(** One settlement: [w'] is [w] after the promise of some key settled. *)
Definition settles_to (w' w : World) : Prop :=
  exists e k, settled_key e = Some k /\ step w e = Some w'.

(** The settlement event for a pending promise, with a given failure. *)
Definition settle_event (err : error) (k : nat) (p : Pending) : Event :=
  match p with
  | PFetch _ => SettleFetch k (Err err)
  | _ => SettleOptions k (Err err)
  end.

(** A trace made of settlements only. *)
Definition settlements (es : list Event) : Prop := Forall (fun e => is_Some (settled_key e)) es.

(** Nothing pending, and the loading indicator off. *)
Definition quiescent (w : World) : Prop := pending w = ∅ /\ loading (ui w) = false.

(** ** Lemmas *)

Lemma settle_shrinks w e k w' :
  settled_key e = Some k -> step w e = Some w' -> size (pending w') = pred (size (pending w)) /\
                                                  size (pending w) <> 0.
Proof.
  intros Hk Hs.
  destruct (step_frame _ _ _ Hs) as
    (_ & [(-> & _) | [(s & _ & -> & _) | [(s' & Hn & _) | (k' & p & s' & _ & Hk' & Hp & ->)]]]);
    try (simpl in Hk; congruence).
  simpl (pending _). rewrite map_size_delete_Some by eauto. split; [reflexivity|].
  apply map_size_non_empty_iff. intros He. rewrite He, lookup_empty in Hp. discriminate.
Qed.

Lemma step_settle_event w err k p :
  mounted w = true -> pending w !! k = Some p ->
  exists w', step w (settle_event err k p) = Some w' /\ pending w' = delete k (pending w).
Proof.
  intros Hm Hp. unfold step. rewrite Hm.
  destruct p; simpl; rewrite Hp;
    rewrite render_effects_same by (cbn [ui]; first [symmetry; apply fetch_deps_settle_fetch | reflexivity]);
    eexists; split; reflexivity.
Qed.

(** Settling every pending promise, by induction on their number. *)
Lemma drain_from (err : error) n w :
  size (pending w) = n ->
  (loading (ui w) = true -> fetch_in_flight w) ->
  (pending w <> ∅ -> mounted w = true) ->
  exists es w', settlements es /\ run w es = Some w' /\ quiescent w'.
Proof.
  revert w. induction n as [|n IH]; intros w Hn Hl Hm.
  - apply map_size_empty_iff in Hn. exists [], w. split; [constructor|]. split; [reflexivity|].
    split; [exact Hn|]. destruct (loading (ui w)) eqn:E; [|reflexivity].
    destruct (Hl eq_refl) as (k & p & Hk). rewrite Hn, lookup_empty in Hk. discriminate.
  - assert (Hne : pending w <> ∅) by (intros He; rewrite He, map_size_empty in Hn; discriminate).
    destruct (map_choose _ Hne) as (k & p & Hk).
    destruct (step_settle_event w err k p (Hm Hne) Hk) as (w1 & Hs & Hp1).
    destruct (IH w1) as (es & w' & Hall & Hrun & He & Hlo).
    + rewrite Hp1, map_size_delete_Some by eauto. rewrite Hn. reflexivity.
    + eapply step_loading; eauto.
    + intros _. exact (proj1 (step_frame _ _ _ Hs)).
    + exists (settle_event err k p :: es), w'. split; [|split].
      * constructor; [destruct p; eexists; reflexivity | exact Hall].
      * simpl. rewrite Hs. exact Hrun.
      * split; assumption.
Qed.

(** ** Properties *)

(** C37: Settlements terminate: there is no infinite sequence of
    settled promises, whatever the outcomes, because each settlement
    removes its request from the pending map. *)
Theorem settlements_terminate : well_founded settles_to.
Proof.
  apply (wf_incl _ _ (fun w' w => size (pending w') < size (pending w))).
  - intros w' w (e & k & Hk & Hs). destruct (settle_shrinks _ _ _ _ Hk Hs). lia.
  - exact (wf_inverse_image _ nat lt (fun w => size (pending w)) lt_wf).
Qed.

(** C38: From every reachable state there is a sequence of
    settlements, one per pending promise, after which nothing is
    pending and the loading indicator is off. *)
Theorem eventually_quiescent ss es w :
  run (init_world ss) es = Some w ->
  exists es' w', settlements es' /\ run w es' = Some w' /\ quiescent w'.
Proof.
  intros H. apply (drain_from (BackendError "504" "Gateway Timeout") (size (pending w))); [reflexivity| |].
  - refine (run_invariant (fun w => loading (ui w) = true -> fetch_in_flight w) _ _ es w _ H);
      [|discriminate]. intros w0 e w1 IH Hs. eapply step_loading; eauto.
  - refine (run_invariant (fun w => pending w <> ∅ -> mounted w = true) _ _ es w _ H);
      [|now intros []]. intros w0 e w1 _ Hs _. exact (proj1 (step_frame _ _ _ Hs)).
Qed.

Lemma eventually_quiescent_witness :
  exists w, run (init_world SessionPresent) [Mount; ClickNext] = Some w /\
    exists es' w', settlements es' /\ run w es' = Some w' /\ quiescent w'.
Proof.
  eexists. split; [reflexivity|].
  apply (eventually_quiescent SessionPresent [Mount; ClickNext]). reflexivity.
Defined.

End Quiescence.
