(* ===== verification/Wiring.v ===== *)
(** * The wiring of [DataTable] into the dashboard, [page.tsx] lines 94-115

    [ProductsDashboard] renders [DataTable] with its state as props and
    its setters as callbacks.  [props_of] is the props object.  The
    [Dashboard] model handles the user's actions directly
    ([Controller.handle]).  This file shows what the table renders from
    the controller's state: a failed directory load leaves both filter
    selects with their "All" item only (C39, spec section 7), and after
    a header click the header row shows the arrow on the clicked column
    only, in the new direction (C40). *)

From stdpp Require Import base gmap.
From Stdlib Require Import ZArith List String Bool Lia.
From S2P Require Import Prelude JsValue Products Normalize DataTable Dashboard.
Import ListNotations.
Open Scope Z_scope.
Open Scope supa_scope.

Module Wiring.

Import Controller.

(** The props of lines 95-114. *)
Definition props_of (s : State) : DataTableProps :=
  mkProps (products s) (total s) (page s) (pageSize s) (sortBy s) (sortOrder s)
          (referenceSearch s) (manufacturerOptions s) (categoryOptions s)
          (manufacturerFilter s) (categoryFilter s) (loading s).

(** ** Lemmas *)

Lemma settle_fetch_options s o :
  manufacturerOptions (settle_fetch s o) = manufacturerOptions s /\
  categoryOptions (settle_fetch s o) = categoryOptions s.
Proof.
  unfold settle_fetch. destruct o as [r|]; [|auto].
  destruct (on_fetched s r) as [s'|] eqn:E; [|auto].
  unfold on_fetched in E. destruct (normalize _); simpl in E; [|discriminate].
  now injection E as <-.
Qed.

(** Only a loaded option list changes the option cells. *)
Lemma step_keeps_options w e w' :
  step w e = Some w' -> (forall k d, e <> SettleOptions k (Ok d)) ->
  manufacturerOptions (ui w') = manufacturerOptions (ui w) /\ categoryOptions (ui w') = categoryOptions (ui w).
Proof.
  intros H He.
  destruct (step_ui _ _ _ H) as
    [-> | [[_ ->] | [(s' & Hh & [-> | ->]) | [(k & o & _ & ->) | (k & d & Ed & _)]]]];
    [auto | auto | exact (handle_keeps_options _ _ _ Hh) | exact (handle_keeps_options _ _ _ Hh)
    | apply settle_fetch_options | now destruct (He k d)].
Qed.

Lemma run_keeps_options w es w' :
  run w es = Some w' -> (forall k d, ~ In (SettleOptions k (Ok d)) es) ->
  manufacturerOptions (ui w') = manufacturerOptions (ui w) /\ categoryOptions (ui w') = categoryOptions (ui w).
Proof.
  revert w. induction es as [|e es IH]; simpl; intros w H Hno; [now injection H as <-|].
  destruct (step w e) as [w1|] eqn:Hs; [|discriminate].
  destruct (IH w1 H) as [-> ->]; [intros k d Hin; eapply Hno; right; exact Hin|].
  apply (step_keeps_options _ _ _ Hs). intros k d ->. eapply Hno. left. reflexivity.
Qed.

Lemma sort_indicator_sym a b o : sort_indicator a o b = if String.eqb b a then Some o else None.
Proof. unfold sort_indicator. now rewrite String.eqb_sym. Qed.

(** ** Properties *)

Local Open Scope string_scope.

(** C39: A failed directory load is not fatal (spec section 7): on any
    trace in which no option list loaded, whatever failed or is still
    pending, both filter selects render their "All" item only, with no
    error, since the option cells keep their initial [[]]. *)
Theorem directory_failure_nonfatal ss es w :
  run (init_world ss) es = Some w ->
  (forall k d, ~ In (SettleOptions k (Ok d)) es) ->
  v_manufacturer_items (DataTable (props_of (ui w))) = Ok [("__all__", JStr "All Manufacturers")] /\
  v_category_items (DataTable (props_of (ui w))) = Ok [("__all__", JStr "All Categories")].
Proof.
  intros H Hno. destruct (run_keeps_options _ _ _ H Hno) as [Hm Hc].
  cbn [DataTable v_manufacturer_items v_category_items props_of p_manufacturerOptions p_categoryOptions].
  rewrite Hm, Hc. split; reflexivity.
Qed.

Lemma directory_failure_nonfatal_witness :
  exists w, run (init_world SessionPresent)
              [Mount; SettleOptions 0 (Err (BackendError "500" "down")); SettleOptions 1 (Err (BackendError "500" "down"))]
            = Some w /\
    v_manufacturer_items (DataTable (props_of (ui w))) = Ok [("__all__", JStr "All Manufacturers")] /\
    v_category_items (DataTable (props_of (ui w))) = Ok [("__all__", JStr "All Categories")].
Proof.
  apply exists_of_some.
  destruct (run (init_world SessionPresent)
              [Mount; SettleOptions 0 (Err (BackendError "500" "down")); SettleOptions 1 (Err (BackendError "500" "down"))])
    as [w|] eqn:E; [|vm_compute in E; discriminate].
  apply (directory_failure_nonfatal _ _ _ E). intros k d [H | [H | [H | []]]]; discriminate.
Defined.

(** C40: After a click on a column header, the header row shows the
    sort arrow on that column and on no other, pointing in the direction
    [handleSort] chose. *)
Theorem header_after_click s key s' :
  handle s (ClickHeader key) = Some s' ->
  header_view (props_of s') =
    map (fun '(k, label) =>
           (k, label, if String.eqb k key then Some (snd (handleSort (sortBy s) (sortOrder s) key)) else None))
        columns.
Proof.
  simpl. unfold handleSort. intros [= <-]. unfold header_view. simpl.
  now rewrite !sort_indicator_sym.
Qed.

Lemma header_after_click_witness :
  exists s', handle initial_state (ClickHeader "reference") = Some s' /\
    header_view (props_of s') =
      map (fun '(k, label) =>
             (k, label, if String.eqb k "reference" then
                          Some (snd (handleSort (sortBy initial_state) (sortOrder initial_state) "reference"))
                        else None))
          columns.
Proof. eexists. split; [reflexivity|]. apply header_after_click. reflexivity. Defined.

End Wiring.
